(** * X Algorithm Analyzer: scorer, content analyzer and batch analyzer

    A shallow embedding of [tools/x_algorithm_analyzer.py].

    Python's [float] is IEEE 754 binary64 and is modelled by Rocq's primitive
    [float], whose operations round to nearest, ties to even, exactly as the
    interpreter's do.  Python's [int] is modelled by [Z], [str] by [string]
    (the UTF-8 bytes of the text), [bool] by [bool], a list by [list], and
    code that can raise by a result type.

    Outside the model: the case folding of non-ASCII letters and non-ASCII
    white space (module [Str]; on ASCII texts the model is the code's),
    and the last bits of the C library's [pow] (see [Py.pow]).
    [calculate_score] is the result of a call that returns: a position
    whose predecessor does not fit a double makes the power raise
    [OverflowError] (see [_calculate_diversity_multiplier_raising]). *)

From Stdlib Require Import ZArith List Bool String Ascii Lia.
From Stdlib Require Import DecimalString DecimalZ DecimalPos.
From Stdlib Require Import Floats.
Import ListNotations.

Set Warnings "-inexact-float".

Local Open Scope Z_scope.

(* ------------------------------------------------------------------ *)
(** * Python numbers *)

Module Py.

(** [max(a, b)] keeps its first argument unless the second one is
    strictly greater; [min(a, b)] unless the second one is strictly
    smaller.  With a NaN second argument both return the first. *)
Definition max (a b : float) : float := if (a <? b)%float then b else a.
Definition min (a b : float) : float := if (b <? a)%float then b else a.

(** [float(n)] for an [int]: the double nearest to [n]. *)
Definition float_of_int (n : Z) : float :=
  SF2Prim (binary_normalize prec emax n 0 false).

(** The integer nearest to [a / b] for [b > 0], ties to the even one. *)
Definition round_half_even_div (a b : Z) : Z :=
  let q := a / b in
  match 2 * (a mod b) ?= b with
  | Lt => q
  | Gt => q + 1
  | Eq => if Z.even q then q else q + 1
  end.

(** The double nearest to [(-1)^s * n / d]. *)
Definition nearest_ratio (s : bool) (n : Z) (d : positive) : float :=
  match n with
  | Zpos p =>
      SF2Prim (SFdiv prec emax (S754_finite s p 0) (S754_finite false d 0))
  | _ => if s then neg_zero else zero
  end.

(** [round(x, ndigits)] for [ndigits >= 0].  The interpreter rounds the
    exact binary value of [x] to [ndigits] decimals, ties to even, and
    returns the double nearest to that decimal; zeros, infinities and NaN
    are returned unchanged. *)
Definition round (x : float) (ndigits : Z) : float :=
  match Prim2SF x with
  | S754_finite s m e =>
      let scale := 10 ^ ndigits in
      let n := if 0 <=? e then Zpos m * 2 ^ e * scale
               else round_half_even_div (Zpos m * scale) (2 ^ (- e)) in
      nearest_ratio s n (Z.to_pos scale)
  | _ => x
  end.

(** The value of [x ** n] for a float [x] and an [int] [n >= 0], when the
    interpreter returns one (see [pow_checked] for when it does).  The
    interpreter converts [n] to a double and hands the operation to the C
    library's [pow]; the model is the [n]-fold product [1 * x * ... * x].
    The two are the same double whenever the power is exact or takes a
    single rounding ([n <= 2]); beyond that they may differ in the last
    bits.  The scorer only raises 0.45 to [post_position - 1 >= 1] and
    takes the greater of the result and the floor 0.10, which hides the
    difference: from the third power on both are below the floor. *)
Definition pow (x : float) (n : Z) : float :=
  Z.iter n (fun acc => (acc * x)%float) 1%float.

(** [sum(xs)] of a list of floats: the accumulator starts at the integer
    0 and the items are added from left to right, each addition rounded.
    This is the summation of CPython up to 3.11; from 3.12 on the
    interpreter compensates the rounding errors of the additions, and its
    result can differ from this one in the last bits. *)
Definition sum (xs : list float) : float :=
  fold_left (fun acc x => (acc + x)%float) xs 0%float.

(** Exceptions the modelled code could raise. *)
Inductive exn := ZeroDivisionError | ValueError | OverflowError.

Inductive result (A : Type) :=
| Ok (a : A)
| Raise (e : exn).
Arguments Ok {A} a.
Arguments Raise {A} e.

Definition bind {A B} (r : result A) (k : A -> result B) : result B :=
  match r with
  | Ok a => k a
  | Raise e => Raise e
  end.

(** The integers the interpreter converts to a double are those below
    [FLOAT_LIMIT] in absolute value: from [2^1024 - 2^970] on the nearest
    double would be infinite, and the conversion raises [OverflowError]. *)
Definition FLOAT_LIMIT : Z := 2 ^ 1024 - 2 ^ 970.

Definition float_of_int_checked (n : Z) : result float :=
  if Z.abs n <? FLOAT_LIMIT then Ok (float_of_int n)
  else Raise OverflowError.

(** [x ** n] for a float [x] and an [int] [n >= 0], as the interpreter
    evaluates it: the exponent is converted to a double first, which can
    raise; otherwise the value is [pow x n]. *)
Definition pow_checked (x : float) (n : Z) : result float :=
  match float_of_int_checked n with
  | Ok _ => Ok (pow x n)
  | Raise e => Raise e
  end.

(** [x / n] for a float [x] and an [int] [n]: [n] is converted to a
    double, and a zero divisor (which only the integer 0 converts to)
    raises [ZeroDivisionError]. *)
Definition truediv (x : float) (n : Z) : result float :=
  if n =? 0 then Raise ZeroDivisionError
  else Ok (x / float_of_int n)%float.

(** [max(xs)] and [min(xs)] of a list: [ValueError] on the empty list,
    otherwise the first greatest (smallest) item. *)
Definition max_list (xs : list float) : result float :=
  match xs with
  | [] => Raise ValueError
  | x :: rest => Ok (fold_left max rest x)
  end.

Definition min_list (xs : list float) : result float :=
  match xs with
  | [] => Raise ValueError
  | x :: rest => Ok (fold_left min rest x)
  end.

(** A value that is an [int] on one path and a [float] on another. *)
Inductive number :=
| Int (n : Z)
| Float (x : float).

End Py.

Notation "x <- r ;; k" := (Py.bind r (fun x => k))
  (at level 61, r at next level, right associativity).

(* ------------------------------------------------------------------ *)
(** * Signal weights *)

Module SignalWeight.
Local Open Scope float_scope.

Definition FAVORITE : float := 1.0.
Definition REPLY : float := 0.8.
Definition REPOST : float := 0.75.
Definition QUOTE : float := 0.7.
Definition FOLLOW_AUTHOR : float := 1.2.
Definition VIDEO_VIEW : float := 0.9.
Definition PROFILE_CLICK : float := 0.5.
Definition SHARE : float := 0.4.
Definition DM_SHARE : float := 0.5.
Definition LINK_COPY : float := 0.45.
Definition DWELL_TIME : float := 0.3.
Definition PHOTO_EXPAND : float := 0.2.
Definition CONTENT_CLICK : float := 0.15.

Definition NOT_INTERESTED : float := -0.6.
Definition BLOCK : float := -1.5.
Definition MUTE : float := -1.2.
Definition REPORT : float := -2.0.

Definition VIDEO_BONUS : float := 1.15.
Definition OON_PENALTY : float := 0.7.

Definition DIVERSITY_BASE : float := 0.45.
Definition DIVERSITY_FLOOR : float := 0.10.
End SignalWeight.

(* ------------------------------------------------------------------ *)
(** * Data classes *)

Record EngagementProbabilities := Build_EngagementProbabilities {
  favorite : float;
  reply : float;
  repost : float;
  quote : float;
  follow_author : float;
  video_view : float;
  profile_click : float;
  share : float;
  dm_share : float;
  link_copy : float;
  dwell_time : float;
  photo_expand : float;
  content_click : float;
  not_interested : float;
  block : float;
  mute : float;
  report : float
}.

(** [EngagementProbabilities()]: every field defaults to 0.0. *)
Definition EngagementProbabilities_default : EngagementProbabilities :=
  Build_EngagementProbabilities 0 0 0 0 0 0 0 0 0 0 0 0 0 0 0 0 0.

Record ContentModifiers := Build_ContentModifiers {
  has_video : bool;
  is_out_of_network : bool;
  post_position : Z;
  post_age_hours : float;
  has_image : bool;
  has_link : bool;
  is_reply : bool;
  is_quote : bool
}.

(** [ContentModifiers()]. *)
Definition ContentModifiers_default : ContentModifiers :=
  Build_ContentModifiers false false 1 0 false false false false.

Record ScoreResult := Build_ScoreResult {
  final_score : float;
  positive_score : float;
  negative_score : float;
  diversity_multiplier : float;
  oon_multiplier : float;
  age_multiplier : float;
  video_bonus_applied : bool;
  interpretation : string;
  recommendations : list string
}.

(* ------------------------------------------------------------------ *)
(** * Score calculator *)

Module XAlgorithmScorer.
Import SignalWeight.
Local Open Scope float_scope.

(** The weighted sum of the thirteen positive signals, added from left
    to right as the source's expression is. *)
Definition positive_contributions (probs : EngagementProbabilities) : float :=
  favorite probs * FAVORITE +
  reply probs * REPLY +
  repost probs * REPOST +
  quote probs * QUOTE +
  follow_author probs * FOLLOW_AUTHOR +
  video_view probs * VIDEO_VIEW +
  profile_click probs * PROFILE_CLICK +
  share probs * SHARE +
  dm_share probs * DM_SHARE +
  link_copy probs * LINK_COPY +
  dwell_time probs * DWELL_TIME +
  photo_expand probs * PHOTO_EXPAND +
  content_click probs * CONTENT_CLICK.

(** The weighted sum of the four negative signals (absolute weights). *)
Definition negative_contributions (probs : EngagementProbabilities) : float :=
  not_interested probs * abs NOT_INTERESTED +
  block probs * abs BLOCK +
  mute probs * abs MUTE +
  report probs * abs REPORT.

(** The value [_calculate_diversity_multiplier] returns.  The power is
    taken for [post_position - 1 >= 1] only; it raises when that exponent
    does not fit a double, which the next definition spells out. *)
Definition _calculate_diversity_multiplier (post_position : Z) : float :=
  if (post_position <=? 1)%Z then 1.0
  else
    let multiplier := Py.pow DIVERSITY_BASE (post_position - 1) in
    Py.max DIVERSITY_FLOOR multiplier.

(** [_calculate_diversity_multiplier] with the conversion of the exponent
    spelled out: what a call does for every [int], the refusal of an
    exponent too large for a double included.  Where it returns, it
    returns the value above. *)
Definition _calculate_diversity_multiplier_raising (post_position : Z)
  : Py.result float :=
  if (post_position <=? 1)%Z then Py.Ok 1.0
  else
    multiplier <- Py.pow_checked DIVERSITY_BASE (post_position - 1) ;;
    Py.Ok (Py.max DIVERSITY_FLOOR multiplier).

Definition _calculate_age_multiplier (age_hours : float) : float :=
  if age_hours <=? 0 then 1.0
  else if 48 <=? age_hours then 0.1
  else Py.max 0.1 (1 - age_hours / 48).

Definition LOW_REACH : string :=
  "LOW REACH: Content likely to be suppressed significantly".
Definition MODERATE_LOW_REACH : string :=
  "MODERATE-LOW REACH: Content will struggle to gain traction".
Definition MODERATE_REACH : string :=
  "MODERATE REACH: Content should reach some users".
Definition GOOD_REACH : string :=
  "GOOD REACH: Content is well-positioned in the algorithm".
Definition EXCELLENT_REACH : string :=
  "EXCELLENT REACH: Content optimized for strong distribution".
Definition VIRAL_POTENTIAL : string :=
  "VIRAL POTENTIAL: Content has maximum algorithmic support".

Definition _interpret_score (score positive negative : float) : string :=
  if score <? 0.3 then LOW_REACH
  else if score <? 0.6 then MODERATE_LOW_REACH
  else if score <? 1.0 then MODERATE_REACH
  else if score <? 1.5 then GOOD_REACH
  else if score <? 2.0 then EXCELLENT_REACH
  else VIRAL_POTENTIAL.

(** [str(n)] for an [int]: its decimal numeral.  (The interpreter
    refuses an [int] of more than 4300 digits; a position that gets past
    the power of the diversity multiplier has at most 309.) *)
Definition str_of_int (n : Z) : string :=
  NilZero.string_of_int (Z.to_int n).

Definition REC_NEGATIVE : string :=
  "WARNING: High negative signal probability. Review content for controversial elements.".
Definition REC_NOT_INTERESTED : string :=
  "Consider making content more engaging or relevant to your audience.".
Definition REC_SPACING (position : Z) : string :=
  ("You're on post #" ++ str_of_int position
    ++ " today. Consider spacing posts for better reach.")%string.
Definition REC_OON : string :=
  "Out-of-network content receives ~30% penalty. Build your follower base.".
Definition REC_AGING : string :=
  "Post is aging. Content has best reach within first 24 hours.".
Definition REC_VIDEO : string :=
  "Consider adding native video for additional algorithmic boost.".
Definition REC_LIKES : string :=
  "Low predicted likes. Focus on creating more likeable content (primary metric).".
Definition REC_SHARE : string :=
  "Low shareability. Create content worth sharing privately.".
Definition REC_WELL_OPTIMIZED : string :=
  "Content is well-optimized! Continue this approach.".

(** [if cond: recs.append(msg)] on the list built so far. *)
Definition append_if (cond : bool) (msg : string) (recs : list string)
  : list string :=
  if cond then recs ++ [msg] else recs.

Definition _generate_recommendations
    (probs : EngagementProbabilities) (modifiers : ContentModifiers)
    (score : float) : list string :=
  let recs := [] in
  let recs := append_if ((0.05 <? block probs) || (0.05 <? mute probs)
                         || (0.02 <? report probs)) REC_NEGATIVE recs in
  let recs := append_if (0.1 <? not_interested probs) REC_NOT_INTERESTED recs in
  let recs := append_if (2 <? post_position modifiers)%Z
                        (REC_SPACING (post_position modifiers)) recs in
  let recs := append_if (is_out_of_network modifiers) REC_OON recs in
  let recs := append_if (24 <? post_age_hours modifiers) REC_AGING recs in
  let recs := append_if (negb (has_video modifiers) && (video_view probs =? 0))
                        REC_VIDEO recs in
  let recs := append_if (favorite probs <? 0.3) REC_LIKES recs in
  let recs := append_if ((share probs <? 0.05) && (dm_share probs <? 0.02))
                        REC_SHARE recs in
  let recs := append_if ((1.5 <? score) && (Z.of_nat (List.length recs) =? 0)%Z)
                        REC_WELL_OPTIMIZED recs in
  recs.

(** The positive score once the video bonus has been decided. *)
Definition apply_video_bonus
    (probs : EngagementProbabilities) (modifiers : ContentModifiers)
    (positive_score : float) : float * bool :=
  if has_video modifiers && (0 <? video_view probs)
  then (positive_score * VIDEO_BONUS, true)
  else (positive_score, false).

Definition calculate_score
    (probs : EngagementProbabilities) (modifiers : ContentModifiers)
    : ScoreResult :=
  let positive_score := positive_contributions probs in
  let negative_score := negative_contributions probs in
  let '(positive_score, video_bonus_applied) :=
    apply_video_bonus probs modifiers positive_score in
  let raw_score := positive_score - negative_score in
  let diversity_multiplier :=
    _calculate_diversity_multiplier (post_position modifiers) in
  let oon_multiplier :=
    if is_out_of_network modifiers then OON_PENALTY else 1.0 in
  let age_multiplier := _calculate_age_multiplier (post_age_hours modifiers) in
  let final_score :=
    raw_score * diversity_multiplier * oon_multiplier * age_multiplier in
  let interpretation := _interpret_score final_score positive_score negative_score in
  let recommendations := _generate_recommendations probs modifiers final_score in
  Build_ScoreResult
    (Py.round final_score 4)
    (Py.round positive_score 4)
    (Py.round negative_score 4)
    (Py.round diversity_multiplier 4)
    (Py.round oon_multiplier 4)
    (Py.round age_multiplier 4)
    video_bonus_applied
    interpretation
    recommendations.

(** [calculate_score] as a call.  The power of the diversity multiplier
    is the one operation of the body that can raise; when it does not,
    the call returns the result above. *)
Definition calculate_score_raising
    (probs : EngagementProbabilities) (modifiers : ContentModifiers)
    : Py.result ScoreResult :=
  _ <- _calculate_diversity_multiplier_raising (post_position modifiers) ;;
  Py.Ok (calculate_score probs modifiers).

End XAlgorithmScorer.

(* ------------------------------------------------------------------ *)
(** * Strings

    A [str] is modelled by the bytes of its UTF-8 encoding.  Substring
    search on the bytes agrees with substring search on the code points.
    Case folding and white space are those of ASCII: on a text of ASCII
    characters ([is_ascii]) [lower], [is_space] and what is built on them
    are the interpreter's.  On other texts the interpreter also folds
    non-ASCII capitals (the Kelvin sign U+212A becomes [k]) and splits and
    strips at non-ASCII blanks (the no-break space U+00A0), which the
    model leaves alone; statements that depend on either are made for
    ASCII texts. *)

Module Str.

Definition code (c : ascii) : N := N_of_ascii c.

(** [s.isascii()]: every character is below 128. *)
Fixpoint is_ascii (s : string) : bool :=
  match s with
  | EmptyString => true
  | String c rest => (code c <? 128)%N && is_ascii rest
  end.

Definition lower_char (c : ascii) : ascii :=
  if ((65 <=? code c) && (code c <=? 90))%N
  then ascii_of_N (code c + 32)
  else c.

(** [s.lower()]. *)
Fixpoint lower (s : string) : string :=
  match s with
  | EmptyString => EmptyString
  | String c rest => String (lower_char c) (lower rest)
  end.

(** [pat in s], and [re.search(pat, s)] for a pattern that is a literal. *)
Fixpoint contains (pat s : string) : bool :=
  String.prefix pat s ||
  match s with
  | EmptyString => false
  | String _ rest => contains pat rest
  end.

(** [s.startswith(pat)]. *)
Definition startswith (s pat : string) : bool := String.prefix pat s.

Definition is_space (c : ascii) : bool :=
  (((9 <=? code c) && (code c <=? 13))
   || ((28 <=? code c) && (code c <=? 32)))%N.

(** [len(s.split())]: the number of maximal runs of non-blank characters;
    [in_word] tells whether the previous character was part of a word. *)
Fixpoint count_words (in_word : bool) (s : string) : Z :=
  match s with
  | EmptyString => 0
  | String c rest =>
      if is_space c then count_words false rest
      else (if in_word then 0 else 1) + count_words true rest
  end.

Definition word_count (s : string) : Z := count_words false s.

(** A byte [10xxxxxx] continues the code point begun before it. *)
Definition is_continuation (c : ascii) : bool :=
  ((128 <=? code c) && (code c <? 192))%N.

(** [len(s)]: the number of code points. *)
Fixpoint len (s : string) : Z :=
  match s with
  | EmptyString => 0
  | String c rest => (if is_continuation c then 0 else 1) + len rest
  end.

(** [s[:n]]: the first [n] code points. *)
Fixpoint take (n : nat) (s : string) : string :=
  match s with
  | EmptyString => EmptyString
  | String c rest =>
      if is_continuation c then String c (take n rest)
      else match n with
           | O => EmptyString
           | S n' => String c (take n' rest)
           end
  end.

(** The string whose UTF-8 bytes are given. *)
Definition of_bytes (bs : list N) : string :=
  fold_right (fun b s => String (ascii_of_N b) s) EmptyString bs.

End Str.

(* ------------------------------------------------------------------ *)
(** * Attribute access on [EngagementProbabilities] *)

Module Attr.

Inductive t :=
| favorite | reply | repost | quote | follow_author | video_view
| profile_click | share | dm_share | link_copy | dwell_time
| photo_expand | content_click | not_interested | block | mute | report.

Definition eqb (a b : t) : bool :=
  match a, b with
  | favorite, favorite | reply, reply | repost, repost | quote, quote
  | follow_author, follow_author | video_view, video_view
  | profile_click, profile_click | share, share | dm_share, dm_share
  | link_copy, link_copy | dwell_time, dwell_time
  | photo_expand, photo_expand | content_click, content_click
  | not_interested, not_interested | block, block | mute, mute
  | report, report => true
  | _, _ => false
  end.

End Attr.

Definition getattr (probs : EngagementProbabilities) (a : Attr.t) : float :=
  match a with
  | Attr.favorite => favorite probs
  | Attr.reply => reply probs
  | Attr.repost => repost probs
  | Attr.quote => quote probs
  | Attr.follow_author => follow_author probs
  | Attr.video_view => video_view probs
  | Attr.profile_click => profile_click probs
  | Attr.share => share probs
  | Attr.dm_share => dm_share probs
  | Attr.link_copy => link_copy probs
  | Attr.dwell_time => dwell_time probs
  | Attr.photo_expand => photo_expand probs
  | Attr.content_click => content_click probs
  | Attr.not_interested => not_interested probs
  | Attr.block => block probs
  | Attr.mute => mute probs
  | Attr.report => report probs
  end.

Definition setattr (probs : EngagementProbabilities) (a : Attr.t) (v : float)
  : EngagementProbabilities :=
  let field b := if Attr.eqb a b then v else getattr probs b in
  Build_EngagementProbabilities
    (field Attr.favorite) (field Attr.reply) (field Attr.repost)
    (field Attr.quote) (field Attr.follow_author) (field Attr.video_view)
    (field Attr.profile_click) (field Attr.share) (field Attr.dm_share)
    (field Attr.link_copy) (field Attr.dwell_time) (field Attr.photo_expand)
    (field Attr.content_click) (field Attr.not_interested) (field Attr.block)
    (field Attr.mute) (field Attr.report).

(** [probs.a += v] and [probs.a -= v]. *)
Definition iadd (a : Attr.t) (v : float) (probs : EngagementProbabilities)
  : EngagementProbabilities :=
  setattr probs a (getattr probs a + v)%float.

Definition isub (a : Attr.t) (v : float) (probs : EngagementProbabilities)
  : EngagementProbabilities :=
  setattr probs a (getattr probs a - v)%float.

(** Assignments to the fields of [ContentModifiers]. *)
Definition set_has_video (m : ContentModifiers) (v : bool) : ContentModifiers :=
  Build_ContentModifiers v (is_out_of_network m) (post_position m)
    (post_age_hours m) (has_image m) (has_link m) (is_reply m) (is_quote m).

Definition set_post_position (m : ContentModifiers) (v : Z) : ContentModifiers :=
  Build_ContentModifiers (has_video m) (is_out_of_network m) v
    (post_age_hours m) (has_image m) (has_link m) (is_reply m) (is_quote m).

Definition set_has_image (m : ContentModifiers) (v : bool) : ContentModifiers :=
  Build_ContentModifiers (has_video m) (is_out_of_network m) (post_position m)
    (post_age_hours m) v (has_link m) (is_reply m) (is_quote m).

Definition set_has_link (m : ContentModifiers) (v : bool) : ContentModifiers :=
  Build_ContentModifiers (has_video m) (is_out_of_network m) (post_position m)
    (post_age_hours m) (has_image m) v (is_reply m) (is_quote m).

Definition set_is_reply (m : ContentModifiers) (v : bool) : ContentModifiers :=
  Build_ContentModifiers (has_video m) (is_out_of_network m) (post_position m)
    (post_age_hours m) (has_image m) (has_link m) v (is_quote m).

(* ------------------------------------------------------------------ *)
(** * Content analyzer *)

Module ContentAnalyzer.
Local Open Scope float_scope.
Local Open Scope string_scope.

(** The pattern lists.  Every pattern is a literal: the only regular
    expression syntax in them is the escaped question mark. *)
Definition QUESTION_PATTERNS : list string :=
  ["?"; "what do you think"; "thoughts?"; "agree?"].
Definition CALL_TO_ACTION : list string :=
  ["retweet"; "rt if"; "share"; "like if"; "follow"].
Definition CONTROVERSY_MARKERS : list string :=
  ["hot take"; "unpopular opinion"; "controversial"].
Definition POSITIVE_SENTIMENT : list string :=
  ["amazing"; "incredible"; "love"; "best"; "great"].
Definition NEGATIVE_TRIGGERS : list string :=
  ["hate"; "worst"; "terrible"; "fight me"; "argue"].

(** The emoji markers: U+1F4F9, U+1F3A5, U+1F4F7 and U+1F5BC U+FE0F. *)
Definition VIDEO_CAMERA : string := Str.of_bytes [240; 159; 147; 185]%N.
Definition MOVIE_CAMERA : string := Str.of_bytes [240; 159; 142; 165]%N.
Definition CAMERA : string := Str.of_bytes [240; 159; 147; 183]%N.
Definition FRAMED_PICTURE : string :=
  Str.of_bytes [240; 159; 150; 188; 239; 184; 143]%N.

Definition LINK_MARKERS : list string :=
  ["http"; "pic."; "video"; VIDEO_CAMERA; MOVIE_CAMERA].
Definition IMAGE_MARKERS : list string :=
  [CAMERA; FRAMED_PICTURE; "photo"; "image"].
Definition VIDEO_MARKERS : list string :=
  ["video"; VIDEO_CAMERA; MOVIE_CAMERA; "watch"].

Definition re_search (pattern text : string) : bool := Str.contains pattern text.

(** [for pattern in patterns: if re.search(pattern, text): ...; break]
    runs its body once when some pattern matches. *)
Definition any_match (patterns : list string) (text : string) : bool :=
  existsb (fun p => re_search p text) patterns.

(** [sum(1 for p in patterns if re.search(p, text))]. *)
Definition count_matches (patterns : list string) (text : string) : Z :=
  Z.of_nat (List.length (filter (fun p => re_search p text) patterns)).

(** [any(x in text for x in markers)]. *)
Definition any_in (markers : list string) (text : string) : bool :=
  existsb (fun x => Str.contains x text) markers.

(** The attribute names of the normalisation loop, in its order. *)
Definition ATTRS : list Attr.t :=
  [Attr.favorite; Attr.reply; Attr.repost; Attr.quote; Attr.follow_author;
   Attr.video_view; Attr.profile_click; Attr.share; Attr.dm_share;
   Attr.link_copy; Attr.dwell_time; Attr.photo_expand; Attr.content_click;
   Attr.not_interested; Attr.block; Attr.mute; Attr.report].

(** One turn of the normalisation loop. *)
Definition normalize_attr (probs : EngagementProbabilities) (attr : Attr.t)
  : EngagementProbabilities :=
  let current := getattr probs attr in
  setattr probs attr (Py.max 0.0 (Py.min 1.0 current)).

Definition analyze_text (text : string)
  : EngagementProbabilities * ContentModifiers :=
  let text_lower := Str.lower text in
  let word_count := Str.word_count text in
  let probs := EngagementProbabilities_default in
  let modifiers := ContentModifiers_default in
  (* base probabilities *)
  let probs := setattr probs Attr.favorite 0.3 in
  let probs := setattr probs Attr.reply 0.15 in
  let probs := setattr probs Attr.repost 0.08 in
  let probs := setattr probs Attr.quote 0.04 in
  let probs := setattr probs Attr.profile_click 0.12 in
  let probs := setattr probs Attr.share 0.05 in
  let probs := setattr probs Attr.dm_share 0.02 in
  let probs := setattr probs Attr.dwell_time 0.25 in
  (* questions *)
  let probs :=
    if any_match QUESTION_PATTERNS text_lower
    then iadd Attr.reply 0.15 probs
    else probs in
  (* calls to action *)
  let probs :=
    if any_match CALL_TO_ACTION text_lower
    then iadd Attr.share 0.05 (iadd Attr.repost 0.1 probs)
    else probs in
  (* positive sentiment *)
  let positive_count := count_matches POSITIVE_SENTIMENT text_lower in
  let probs :=
    iadd Attr.favorite (Py.min 0.2 (Py.float_of_int positive_count * 0.05)) probs in
  (* controversy markers *)
  let probs :=
    if any_match CONTROVERSY_MARKERS text_lower
    then iadd Attr.mute 0.02
           (iadd Attr.not_interested 0.05
              (iadd Attr.quote 0.08 (iadd Attr.reply 0.1 probs)))
    else probs in
  (* negative triggers *)
  let negative_count := count_matches NEGATIVE_TRIGGERS text_lower in
  let probs :=
    if (0 <? negative_count)%Z
    then iadd Attr.not_interested
           (Py.min 0.15 (Py.float_of_int negative_count * 0.05))
           (iadd Attr.mute (Py.min 0.08 (Py.float_of_int negative_count * 0.03))
              (iadd Attr.block
                 (Py.min 0.05 (Py.float_of_int negative_count * 0.02)) probs))
    else probs in
  (* media indicators *)
  let modifiers :=
    if any_in LINK_MARKERS text_lower then set_has_link modifiers true
    else modifiers in
  let '(probs, modifiers) :=
    if any_in IMAGE_MARKERS text_lower
    then (setattr probs Attr.photo_expand 0.15, set_has_image modifiers true)
    else (probs, modifiers) in
  let '(probs, modifiers) :=
    if any_in VIDEO_MARKERS text_lower
    then (setattr probs Attr.video_view 0.35, set_has_video modifiers true)
    else (probs, modifiers) in
  (* dwell time by length *)
  let probs :=
    if (50 <? word_count)%Z then iadd Attr.dwell_time 0.15 probs
    else if (word_count <? 10)%Z then isub Attr.dwell_time 0.1 probs
    else probs in
  (* reply *)
  let modifiers :=
    if Str.startswith text_lower "@" then set_is_reply modifiers true
    else modifiers in
  (* normalisation to [0, 1] *)
  let probs := fold_left normalize_attr ATTRS probs in
  (probs, modifiers).

End ContentAnalyzer.

(* ------------------------------------------------------------------ *)
(** * Batch analyzer *)

(** One entry of the ["results"] list. *)
Module PostEntry.
Record t := Build {
  post_number : Z;
  text_preview : string;
  score : float;
  diversity_penalty : float;
  interpretation : string
}.
End PostEntry.

(** The dictionary [analyze_posts] returns. *)
Module BatchReport.
Record t := Build {
  post_count : Z;
  average_score : Py.number;
  best_score : Py.number;
  worst_score : Py.number;
  results : list PostEntry.t;
  recommendation : string
}.
End BatchReport.

Module BatchAnalyzer.
Import XAlgorithmScorer ContentAnalyzer.
Local Open Scope string_scope.

(** [enumerate(xs)], counting from [i]. *)
Fixpoint enumerate_from {A} (i : Z) (xs : list A) : list (Z * A) :=
  match xs with
  | [] => []
  | x :: rest => (i, x) :: enumerate_from (i + 1) rest
  end.

Definition enumerate {A} (xs : list A) : list (Z * A) := enumerate_from 0 xs.

Definition len {A} (xs : list A) : Z := Z.of_nat (List.length xs).

(** The truth value of a list: it is not empty. *)
Definition truthy {A} (xs : list A) : bool :=
  match xs with
  | [] => false
  | _ :: _ => true
  end.

(** The body of the loop over the posts: the entry for post [i]. *)
Definition analyze_post (is_same_author : bool) (i : Z) (post : string)
  : PostEntry.t :=
  let '(probs, modifiers) := analyze_text post in
  let modifiers :=
    if is_same_author then set_post_position modifiers (i + 1) else modifiers in
  let score_result := calculate_score probs modifiers in
  PostEntry.Build
    (i + 1)
    (if (50 <? Str.len post)%Z then Str.take 50 post ++ "..." else post)
    (final_score score_result)
    (diversity_multiplier score_result)
    (interpretation score_result).

Definition _batch_recommendation
    (results : list PostEntry.t) (is_same_author : bool) : Py.result string :=
  if negb (truthy results) then Py.Ok "No posts to analyze."
  else if is_same_author && (3 <? len results)%Z then
    Py.Ok ("Warning: " ++ str_of_int (len results) ++ " posts from same author. "
           ++ "Posts 4+ receive <20% of normal score. "
           ++ "Consider spacing posts throughout the day.")
  else
    avg_score <- Py.truediv (Py.sum (map PostEntry.score results)) (len results) ;;
    if (avg_score <? 0.5)%float then
      Py.Ok "Overall low engagement predicted. Review content strategy."
    else if (avg_score <? 1.0)%float then
      Py.Ok "Moderate engagement expected. Focus on increasing likeability."
    else
      Py.Ok "Good engagement potential across posts.".

Definition analyze_posts (posts : list string) (is_same_author : bool)
  : Py.result BatchReport.t :=
  let results :=
    fold_left
      (fun (results : list PostEntry.t) '(i, post) =>
         (results ++ [analyze_post is_same_author i post])%list)
      (enumerate posts) [] in
  let scores := map PostEntry.score results in
  average_score <-
    (if truthy scores
     then mean <- Py.truediv (Py.sum scores) (len scores) ;;
          Py.Ok (Py.Float (Py.round mean 4))
     else Py.Ok (Py.Int 0)) ;;
  best_score <-
    (if truthy scores
     then best <- Py.max_list scores ;; Py.Ok (Py.Float (Py.round best 4))
     else Py.Ok (Py.Int 0)) ;;
  worst_score <-
    (if truthy scores
     then worst <- Py.min_list scores ;; Py.Ok (Py.Float (Py.round worst 4))
     else Py.Ok (Py.Int 0)) ;;
  recommendation <- _batch_recommendation results is_same_author ;;
  Py.Ok (BatchReport.Build (len posts) average_score best_score worst_score
           results recommendation).

End BatchAnalyzer.

(* ------------------------------------------------------------------ *)
(** * Definitions used by the statements *)

(** ** The order of binary64 values

    [SFcompare] orders the values that are not NaN by sign class, then by
    exponent and mantissa; [sf_rank] is that key. *)

Definition sf_le3 (a b : Z * Z * Z) : Prop :=
  let '(a1, a2, a3) := a in
  let '(b1, b2, b3) := b in
  a1 < b1 \/ (a1 = b1 /\ (a2 < b2 \/ (a2 = b2 /\ a3 <= b3))).

Definition sf_lt3 (a b : Z * Z * Z) : Prop :=
  let '(a1, a2, a3) := a in
  let '(b1, b2, b3) := b in
  a1 < b1 \/ (a1 = b1 /\ (a2 < b2 \/ (a2 = b2 /\ a3 < b3))).

Definition sf_rank (x : spec_float) : option (Z * Z * Z) :=
  match x with
  | S754_nan => None
  | S754_infinity true => Some (-2, 0, 0)
  | S754_finite true m e => Some (-1, - e, Zneg m)
  | S754_zero _ => Some (0, 0, 0)
  | S754_finite false m e => Some (1, e, Zpos m)
  | S754_infinity false => Some (2, 0, 0)
  end.

Definition float_rank (x : float) : option (Z * Z * Z) := sf_rank (Prim2SF x).

(** ** The scorer's intermediate values, before rounding *)

Module Unrounded.
Import SignalWeight XAlgorithmScorer.
Local Open Scope float_scope.

Definition positive_score (probs : EngagementProbabilities)
    (modifiers : ContentModifiers) : float :=
  if has_video modifiers && (0 <? video_view probs)
  then positive_contributions probs * VIDEO_BONUS
  else positive_contributions probs.

Definition negative_score (probs : EngagementProbabilities) : float :=
  negative_contributions probs.

Definition diversity_multiplier (modifiers : ContentModifiers) : float :=
  _calculate_diversity_multiplier (post_position modifiers).

Definition oon_multiplier (modifiers : ContentModifiers) : float :=
  if is_out_of_network modifiers then OON_PENALTY else 1.0.

Definition age_multiplier (modifiers : ContentModifiers) : float :=
  _calculate_age_multiplier (post_age_hours modifiers).

Definition final_score (probs : EngagementProbabilities)
    (modifiers : ContentModifiers) : float :=
  (positive_score probs modifiers - negative_score probs)
  * diversity_multiplier modifiers
  * oon_multiplier modifiers
  * age_multiplier modifiers.

End Unrounded.

(** ** The interpretation bands, as the specification words them *)

Module Bands.
Import XAlgorithmScorer.
Local Open Scope float_scope.

Inductive score_band : float -> string -> Prop :=
| band_low s :
    (s <? 0.3) = true -> score_band s LOW_REACH
| band_moderate_low s :
    (0.3 <=? s) = true -> (s <? 0.6) = true -> score_band s MODERATE_LOW_REACH
| band_moderate s :
    (0.6 <=? s) = true -> (s <? 1.0) = true -> score_band s MODERATE_REACH
| band_good s :
    (1.0 <=? s) = true -> (s <? 1.5) = true -> score_band s GOOD_REACH
| band_excellent s :
    (1.5 <=? s) = true -> (s <? 2.0) = true -> score_band s EXCELLENT_REACH
| band_viral s :
    (2.0 <=? s) = true -> score_band s VIRAL_POTENTIAL.

End Bands.

(** ** The two decays *)

Module Decay.
Import XAlgorithmScorer.
Local Open Scope float_scope.

(** The age decay, as the specification words it. *)
Inductive age_decay : float -> float -> Prop :=
| age_fresh a :
    (a <=? 0) = true -> age_decay a 1.0
| age_dead a :
    (48 <=? a) = true -> age_decay a 0.1
| age_linear a :
    (0 <? a) = true -> (a <? 48) = true ->
    age_decay a (Py.max 0.1 (1 - a / 48)).

(** The values the diversity multiplier takes. *)
Definition diversity_table (post_position : Z) : float :=
  if (post_position <=? 1)%Z then 1.0
  else if (post_position =? 2)%Z then 0.45
  else if (post_position =? 3)%Z then 0.45 * 0.45
  else 0.10.

(** The multiplier the specification gives to a position after the
    first, [n] being the position less one: the double nearest to the
    greater of 1/10 and (9/20)^n, the two compared as fractions. *)
Definition nearest_max_power (n : Z) : float :=
  if (10 * 9 ^ n <=? 20 ^ n)%Z then Py.nearest_ratio false 1 10
  else Py.nearest_ratio false (9 ^ n) (Z.to_pos (20 ^ n)).

(** One more factor of the running product of [Py.pow]. *)
Definition pow_step (acc : float) : float := acc * SignalWeight.DIVERSITY_BASE.

(** From this many factors on the running product has underflowed to 0. *)
Definition POW_UNDERFLOW : nat := 940.

End Decay.

(** ** The recommendation rules, as the specification lists them *)

Module Rules.
Import XAlgorithmScorer.
Local Open Scope float_scope.

Definition rules (probs : EngagementProbabilities) (modifiers : ContentModifiers)
  : list (bool * string) :=
  [ ((0.05 <? block probs) || (0.05 <? mute probs) || (0.02 <? report probs),
     REC_NEGATIVE);
    (0.1 <? not_interested probs, REC_NOT_INTERESTED);
    ((2 <? post_position modifiers)%Z, REC_SPACING (post_position modifiers));
    (is_out_of_network modifiers, REC_OON);
    (24 <? post_age_hours modifiers, REC_AGING);
    (negb (has_video modifiers) && (video_view probs =? 0), REC_VIDEO);
    (favorite probs <? 0.3, REC_LIKES);
    ((share probs <? 0.05) && (dm_share probs <? 0.02), REC_SHARE) ].

(** The number a decimal numeral stands for. *)
Definition numeral_value (numeral : string) : option Z :=
  option_map Z.of_int (NilZero.int_of_string numeral).

(** The messages of the rules whose condition holds, in the rules' order. *)
Definition fired (rs : list (bool * string)) : list string :=
  map snd (filter fst rs).

Definition expected (probs : EngagementProbabilities)
    (modifiers : ContentModifiers) (score : float) : list string :=
  match fired (rules probs modifiers) with
  | [] => if 1.5 <? score then [REC_WELL_OPTIMIZED] else []
  | recs => recs
  end.

End Rules.

(** ** Clamping, and the batch summary *)

Module Summary.
Import XAlgorithmScorer ContentAnalyzer BatchAnalyzer.
Local Open Scope float_scope.

Definition clamp (x : float) : float := Py.max 0.0 (Py.min 1.0 x).

(** The final score of the post at 0-based index [k] of a batch, computed
    on its own. *)
Definition individual_final_score (is_same_author : bool) (k : nat)
    (post : string) : float :=
  let '(probs, modifiers) := analyze_text post in
  let modifiers :=
    if is_same_author
    then set_post_position modifiers (Z.of_nat k + 1)
    else modifiers in
  final_score (calculate_score probs modifiers).

Definition individual_final_scores (posts : list string)
    (is_same_author : bool) : list float :=
  map (fun k => individual_final_score is_same_author k (nth k posts ""%string))
      (seq 0 (List.length posts)).

(** The total of a list of floats added to [acc], one after the other. *)
Fixpoint total_from (acc : float) (xs : list float) : float :=
  match xs with
  | [] => acc
  | x :: rest => total_from (acc + x) rest
  end.

(** The arithmetic mean of [N] floats: their total divided by [N]. *)
Definition arithmetic_mean (xs : list float) : float :=
  total_from 0 xs / Py.float_of_int (Z.of_nat (List.length xs)).

End Summary.

(** ** Sample inputs *)

Module Samples.
Local Open Scope float_scope.

(** Every probability 0 except [favorite]. *)
Definition only_favorite (p : float) : EngagementProbabilities :=
  Build_EngagementProbabilities p 0 0 0 0 0 0 0 0 0 0 0 0 0 0 0 0.

(** Every probability 0 except [favorite] and [video_view]. *)
Definition favorite_and_video (p v : float) : EngagementProbabilities :=
  Build_EngagementProbabilities p 0 0 0 0 v 0 0 0 0 0 0 0 0 0 0 0.

Definition out_of_network : ContentModifiers :=
  Build_ContentModifiers false true 1 0 false false false false.

Definition with_video : ContentModifiers :=
  Build_ContentModifiers true false 1 0 false false false false.

(** A post no rule objects to, scoring above 1.5. *)
Definition well_optimized_probs : EngagementProbabilities :=
  Build_EngagementProbabilities 1.0 1.0 0 0 0 0.5 0 0.1 0 0 0 0 0 0 0 0 0.

Definition HOT_TAKE : string := "hot take: this is terrible, fight me".

(** Probabilities and modifiers every one of the eight rules objects to:
    the fifth post of the day, out of network, thirty hours old. *)
Definition troubled_probs : EngagementProbabilities :=
  Build_EngagementProbabilities 0.1 0 0 0 0 0 0 0 0 0 0 0 0 0.2 0.1 0 0.

Definition fifth_post : ContentModifiers :=
  Build_ContentModifiers false true 5 30 false false false false.

End Samples.

(* ------------------------------------------------------------------ *)
(** * Definitions for the further properties *)

(** ** Reach levels *)

Module Reach.
Import XAlgorithmScorer.

(** The six interpretations, from the weakest reach to the strongest. *)
Definition LEVELS : list string :=
  [LOW_REACH; MODERATE_LOW_REACH; MODERATE_REACH; GOOD_REACH;
   EXCELLENT_REACH; VIRAL_POTENTIAL].

(** The position of a message in a list (the length when absent). *)
Fixpoint index_of (msg : string) (l : list string) : nat :=
  match l with
  | [] => 0
  | m :: rest => if String.eqb msg m then 0%nat else S (index_of msg rest)
  end.

Definition level (msg : string) : nat := index_of msg LEVELS.

End Reach.

(** ** The entries of a batch *)

Module Report.
Import BatchAnalyzer.

(** The entries [analyze_posts] collects, one per post. *)
Definition entries (is_same_author : bool) (posts : list string)
  : list PostEntry.t :=
  map (fun ip => analyze_post is_same_author (fst ip) (snd ip)) (enumerate posts).

(** The greatest and the least of a list of scores, as [max] and [min]
    find them (0 stands for the empty list, which has neither). *)
Definition greatest (scores : list float) : float :=
  match scores with
  | [] => 0
  | x :: rest => fold_left Py.max rest x
  end.

Definition least (scores : list float) : float :=
  match scores with
  | [] => 0
  | x :: rest => fold_left Py.min rest x
  end.

(** A summary statistic: the integer 0 for an empty batch, the rounded
    statistic of the scores otherwise. *)
Definition statistic (f : list float -> float) (scores : list float)
  : Py.number :=
  match scores with
  | [] => Py.Int 0
  | _ :: _ => Py.Float (Py.round (f scores) 4)
  end.

(** A value that is not NaN: it has a place in the order. *)
Definition ranked (x : float) : Prop := exists a, float_rank x = Some a.

End Report.

(** ** The features of a text

    [analyze_text] looks at a text through five tests, two counts and
    its number of words.  [Features.probabilities] is its computation of
    the probabilities with those taken as given. *)

Module Features.
Import ContentAnalyzer XAlgorithmScorer.
Local Open Scope float_scope.

Record t := Build {
  question : bool;
  call_to_action : bool;
  controversy : bool;
  image : bool;
  video : bool;
  positive_count : Z;
  negative_count : Z;
  word_count : Z
}.

Definition of_text (text : string) : t :=
  let text_lower := Str.lower text in
  Build (any_match QUESTION_PATTERNS text_lower)
        (any_match CALL_TO_ACTION text_lower)
        (any_match CONTROVERSY_MARKERS text_lower)
        (any_in IMAGE_MARKERS text_lower)
        (any_in VIDEO_MARKERS text_lower)
        (count_matches POSITIVE_SENTIMENT text_lower)
        (count_matches NEGATIVE_TRIGGERS text_lower)
        (Str.word_count text).

(** The probabilities before the normalisation loop. *)
Definition raw_probabilities (f : t) : EngagementProbabilities :=
  let probs := EngagementProbabilities_default in
  let probs := setattr probs Attr.favorite 0.3 in
  let probs := setattr probs Attr.reply 0.15 in
  let probs := setattr probs Attr.repost 0.08 in
  let probs := setattr probs Attr.quote 0.04 in
  let probs := setattr probs Attr.profile_click 0.12 in
  let probs := setattr probs Attr.share 0.05 in
  let probs := setattr probs Attr.dm_share 0.02 in
  let probs := setattr probs Attr.dwell_time 0.25 in
  let probs :=
    if question f then iadd Attr.reply 0.15 probs else probs in
  let probs :=
    if call_to_action f
    then iadd Attr.share 0.05 (iadd Attr.repost 0.1 probs)
    else probs in
  let probs :=
    iadd Attr.favorite
      (Py.min 0.2 (Py.float_of_int (positive_count f) * 0.05)) probs in
  let probs :=
    if controversy f
    then iadd Attr.mute 0.02
           (iadd Attr.not_interested 0.05
              (iadd Attr.quote 0.08 (iadd Attr.reply 0.1 probs)))
    else probs in
  let probs :=
    if (0 <? negative_count f)%Z
    then iadd Attr.not_interested
           (Py.min 0.15 (Py.float_of_int (negative_count f) * 0.05))
           (iadd Attr.mute
              (Py.min 0.08 (Py.float_of_int (negative_count f) * 0.03))
              (iadd Attr.block
                 (Py.min 0.05 (Py.float_of_int (negative_count f) * 0.02))
                 probs))
    else probs in
  let probs :=
    if image f then setattr probs Attr.photo_expand 0.15 else probs in
  let probs :=
    if video f then setattr probs Attr.video_view 0.35 else probs in
  let probs :=
    if (50 <? word_count f)%Z then iadd Attr.dwell_time 0.15 probs
    else if (word_count f <? 10)%Z then isub Attr.dwell_time 0.1 probs
    else probs in
  probs.

Definition probabilities (f : t) : EngagementProbabilities :=
  fold_left normalize_attr ATTRS (raw_probabilities f).

(** The final score of a text with features [f] posted at [position],
    fresh and in network. *)
Definition score_at (f : t) (position : Z) : float :=
  final_score
    (calculate_score (probabilities f)
       (Build_ContentModifiers (video f) false position 0
          (image f) false false false)).

(** One word count for each of the three lengths the analyzer tells
    apart, and one position for each value of the diversity multiplier. *)
Definition length_class (word_count : Z) : Z :=
  (if 50 <? word_count then 51
   else if word_count <? 10 then 0
   else 10)%Z.

Definition position_class (position : Z) : Z :=
  (if position <=? 1 then 1
   else if position =? 2 then 2
   else if position =? 3 then 3
   else 4)%Z.

Definition BOOLS : list bool := [false; true].
Definition COUNTS : list Z := [0; 1; 2; 3; 4; 5]%Z.
Definition LENGTHS : list Z := [0; 10; 51]%Z.
Definition POSITIONS : list Z := [1; 2; 3; 4]%Z.

(** Every combination of features a text can have, up to the class of
    its length. *)
Definition ALL : list t :=
  flat_map (fun q =>
  flat_map (fun a =>
  flat_map (fun c =>
  flat_map (fun i =>
  flat_map (fun v =>
  flat_map (fun p =>
  flat_map (fun n =>
  map (fun w => Build q a c i v p n w) LENGTHS)
  COUNTS) COUNTS) BOOLS) BOOLS) BOOLS) BOOLS) BOOLS.

Definition canonical (f : t) : t :=
  Build (question f) (call_to_action f) (controversy f) (image f) (video f)
        (positive_count f) (negative_count f) (length_class (word_count f)).

(** Every score a text can get, fresh and in network. *)
Definition ALL_SCORES : list float :=
  flat_map (fun f => map (score_at f) POSITIONS) ALL.

End Features.

(** ** Ranges of the analysed probabilities *)

Module Ranges.
Local Open Scope float_scope.

Definition within (lo hi x : float) : bool := (lo <=? x) && (x <=? hi).

(** The least and the greatest value of each field over all texts. *)
Definition RANGE (a : Attr.t) : float * float :=
  match a with
  | Attr.favorite => (0.3, 0.5)
  | Attr.reply => (0.15, 0.4)
  | Attr.repost => (0.08, 0.18)
  | Attr.quote => (0.04, 0.12)
  | Attr.follow_author => (0, 0)
  | Attr.video_view => (0, 0.35)
  | Attr.profile_click => (0.12, 0.12)
  | Attr.share => (0.05, 0.1)
  | Attr.dm_share => (0.02, 0.02)
  | Attr.link_copy => (0, 0)
  | Attr.dwell_time => (0.15, 0.4)
  | Attr.photo_expand => (0, 0.15)
  | Attr.content_click => (0, 0)
  | Attr.not_interested => (0, 0.2)
  | Attr.block => (0, 0.05)
  | Attr.mute => (0, 0.1)
  | Attr.report => (0, 0)
  end.

Definition in_range (probs : EngagementProbabilities) (a : Attr.t) : bool :=
  within (fst (RANGE a)) (snd (RANGE a)) (getattr probs a).

Definition all_in_range (probs : EngagementProbabilities) : bool :=
  forallb (in_range probs) ContentAnalyzer.ATTRS.

(** The normalisation loop leaves the probabilities of [f] as they are. *)
Definition untouched (f : Features.t) : bool :=
  forallb (fun a => Leibniz.eqb (getattr (Features.probabilities f) a)
                                (getattr (Features.raw_probabilities f) a))
          ContentAnalyzer.ATTRS.

(** The checks made on a fresh, in-network result. *)
Definition moderate_result (r : ScoreResult) : bool :=
  within 0.382 1.8021 (final_score r)
  && negb (String.eqb (interpretation r) XAlgorithmScorer.LOW_REACH)
  && negb (String.eqb (interpretation r) XAlgorithmScorer.VIRAL_POTENTIAL).

(** The checks made on every score of a batch: it is not NaN, lies
    between the least and the greatest score there is, and is left as it
    is by a second rounding. *)
Definition settled_score (s : float) : bool :=
  within 0.0382 1.8021 s && Leibniz.eqb (Py.round s 4) s.

(** The checks made on the four scores of one combination of features:
    each is settled, and none exceeds the score of an earlier position. *)
Definition settled_feature (f : Features.t) : bool :=
  let s1 := Features.score_at f 1 in
  let s2 := Features.score_at f 2 in
  let s3 := Features.score_at f 3 in
  let s4 := Features.score_at f 4 in
  settled_score s1 && settled_score s2 && settled_score s3 && settled_score s4
  && (s2 <=? s1) && (s3 <=? s2) && (s4 <=? s3).

End Ranges.

(** ** Media flags and probabilities *)

Module Media.
Local Open Scope float_scope.

(** The media probabilities agree with the media flags. *)
Definition consistent (f : Features.t) : bool :=
  Leibniz.eqb (video_view (Features.probabilities f))
              (if Features.video f then 0.35 else 0)
  && Leibniz.eqb (photo_expand (Features.probabilities f))
                 (if Features.image f then 0.15 else 0).

End Media.

(** ** The command line handlers

    The handlers print; what is modelled is what they compute before
    printing. *)

Module Cli.
Import SignalWeight XAlgorithmScorer ContentAnalyzer.
Local Open Scope float_scope.

Definition set_post_age_hours (m : ContentModifiers) (v : float)
  : ContentModifiers :=
  Build_ContentModifiers (has_video m) (is_out_of_network m) (post_position m)
    v (has_image m) (has_link m) (is_reply m) (is_quote m).

Definition set_is_out_of_network (m : ContentModifiers) (v : bool)
  : ContentModifiers :=
  Build_ContentModifiers (has_video m) v (post_position m)
    (post_age_hours m) (has_image m) (has_link m) (is_reply m) (is_quote m).

(** [cmd_analyze]: the result printed for a text and the options
    [--post-position], [--age] and [--oon]. *)
Definition cmd_analyze (text : string) (post_position : Z) (age : float)
    (oon : bool) : ScoreResult :=
  let '(probs, modifiers) := analyze_text text in
  let modifiers := set_post_position modifiers post_position in
  let modifiers := set_post_age_hours modifiers age in
  let modifiers := set_is_out_of_network modifiers oon in
  calculate_score probs modifiers.

(** [cmd_analyze] as a call: it raises when the scorer does. *)
Definition cmd_analyze_raising (text : string) (post_position : Z)
    (age : float) (oon : bool) : Py.result ScoreResult :=
  let '(probs, modifiers) := analyze_text text in
  let modifiers := set_post_position modifiers post_position in
  let modifiers := set_post_age_hours modifiers age in
  let modifiers := set_is_out_of_network modifiers oon in
  calculate_score_raising probs modifiers.

(** [int(x)] for a float: [x] truncated towards zero; it raises on NaN
    and on the infinities ([None]). *)
Definition int_of_float (x : float) : option Z :=
  match Prim2SF x with
  | S754_zero _ => Some 0%Z
  | S754_finite s m e =>
      let n := if (0 <=? e)%Z then (Zpos m * 2 ^ e)%Z
               else (Zpos m / 2 ^ (- e))%Z in
      Some (if s then (- n)%Z else n)
  | _ => None
  end.

(** [s * n] for a string: [n] copies of [s], none when [n <= 0]. *)
Definition repeat_string (s : string) (n : Z) : string :=
  Nat.iter (Z.to_nat n) (fun acc => (s ++ acc)%string) EmptyString.

(** The block characters of the bar, U+2588 and U+2591. *)
Definition FULL_BLOCK : string := Str.of_bytes [226; 150; 136]%N.
Definition LIGHT_SHADE : string := Str.of_bytes [226; 150; 145]%N.

(** [range(1, n + 1)]. *)
Definition range_from_1 (n : Z) : list Z :=
  map (fun k => (Z.of_nat k + 1)%Z) (seq 0 (Z.to_nat n)).

(** One row of the table of [cmd_diversity]: the number of the post, the
    multiplier, its percentage and the bar.  The row is [None] when
    [int] raises. *)
Definition diversity_row (i : Z) : option (Z * float * float * string) :=
  let base := DIVERSITY_BASE in
  let floor := DIVERSITY_FLOOR in
  let mult := Py.max floor (Py.pow base (i - 1)) in
  let effective := mult * 100 in
  match int_of_float (effective / 5) with
  | Some filled =>
      Some (i, mult, effective,
            (repeat_string FULL_BLOCK filled
             ++ repeat_string LIGHT_SHADE (20 - filled))%string)
  | None => None
  end.

(** [cmd_diversity]: the rows printed for [--posts], from the first
    down the table. *)
Definition cmd_diversity (posts : Z)
  : list (option (Z * float * float * string)) :=
  map diversity_row (range_from_1 posts).

(** [s.lstrip()], [s.rstrip()] and [s.strip()], for the blanks of
    [Str.is_space]. *)
Fixpoint lstrip (s : string) : string :=
  match s with
  | EmptyString => EmptyString
  | String c rest => if Str.is_space c then lstrip rest else s
  end.

Fixpoint rstrip (s : string) : string :=
  match s with
  | EmptyString => EmptyString
  | String c rest =>
      match rstrip rest with
      | EmptyString => if Str.is_space c then EmptyString
                       else String c EmptyString
      | kept => String c kept
      end
  end.

Definition strip (s : string) : string := rstrip (lstrip s).

(** A string that does not begin with a blank. *)
Definition starts_clean (s : string) : Prop :=
  match s with
  | EmptyString => True
  | String c _ => Str.is_space c = false
  end.

(** The truth value of a string: it is not empty. *)
Definition nonempty (s : string) : bool :=
  match s with
  | EmptyString => false
  | String _ _ => true
  end.

(** [cmd_batch] with [--file]: the posts read from the lines of the file,
    [[line.strip() for line in f if line.strip()]]. *)
Definition read_posts (lines : list string) : list string :=
  map strip (filter (fun line => nonempty (strip line)) lines).

End Cli.

(* ------------------------------------------------------------------ *)
(** * Comparisons of floats *)

Section RankOrder.

Lemma SFltb_rank (x y : spec_float) :
  SFltb x y = true <->
  exists a b, sf_rank x = Some a /\ sf_rank y = Some b /\ sf_lt3 a b.
Proof.
  unfold SFltb.
  destruct x as [sx|sx| |sx mx ex], y as [sy|sy| |sy my ey];
    try destruct sx; try destruct sy; simpl;
    try (split; [ discriminate | intros (a & b & Ha & Hb & Hab);
                   inversion Ha; inversion Hb; subst; simpl in Hab; lia ]);
    try (split; [ intros _; do 2 eexists; repeat split; simpl; lia
                | reflexivity ]);
    try (split; [ discriminate | intros (a & b & Ha & Hb & Hab); discriminate ]).
  all: change (Pos.compare_cont Eq) with Pos.compare.
  all: destruct (Z.compare_spec ex ey); [ destruct (Pos.compare_spec mx my) | | ];
      simpl;
      (split; [ try discriminate; intros _; do 2 eexists; repeat split; simpl; lia
              | try reflexivity; intros (a & b & Ha & Hb & Hab);
                inversion Ha; inversion Hb; subst; simpl in Hab; lia ]).
Qed.

Lemma SFleb_rank (x y : spec_float) :
  SFleb x y = true <->
  exists a b, sf_rank x = Some a /\ sf_rank y = Some b /\ sf_le3 a b.
Proof.
  unfold SFleb.
  destruct x as [sx|sx| |sx mx ex], y as [sy|sy| |sy my ey];
    try destruct sx; try destruct sy; simpl;
    try (split; [ discriminate | intros (a & b & Ha & Hb & Hab);
                   inversion Ha; inversion Hb; subst; simpl in Hab; lia ]);
    try (split; [ intros _; do 2 eexists; repeat split; simpl; lia
                | reflexivity ]);
    try (split; [ discriminate | intros (a & b & Ha & Hb & Hab); discriminate ]).
  all: change (Pos.compare_cont Eq) with Pos.compare.
  all: destruct (Z.compare_spec ex ey); [ destruct (Pos.compare_spec mx my) | | ];
      simpl;
      (split; [ try discriminate; intros _; do 2 eexists; repeat split; simpl; lia
              | try reflexivity; intros (a & b & Ha & Hb & Hab);
                inversion Ha; inversion Hb; subst; simpl in Hab; lia ]).
Qed.

End RankOrder.

Lemma ltb_rank (x y : float) :
  (x <? y)%float = true <->
  exists a b, float_rank x = Some a /\ float_rank y = Some b /\ sf_lt3 a b.
Proof. rewrite ltb_spec. apply SFltb_rank. Qed.

Lemma leb_rank (x y : float) :
  (x <=? y)%float = true <->
  exists a b, float_rank x = Some a /\ float_rank y = Some b /\ sf_le3 a b.
Proof. rewrite leb_spec. apply SFleb_rank. Qed.

(** Turn the comparisons among the hypotheses into facts on ranks and
    identify the ranks of one and the same value. *)
Ltac rank_facts :=
  repeat match goal with
    | H : (_ <? _)%float = true |- _ =>
        apply ltb_rank in H; destruct H as (? & ? & ? & ? & H)
    | H : (_ <=? _)%float = true |- _ =>
        apply leb_rank in H; destruct H as (? & ? & ? & ? & H)
    end;
  repeat match goal with
    | H1 : float_rank ?x = Some ?a, H2 : float_rank ?x = Some ?b |- _ =>
        rewrite H1 in H2; inversion H2; subst; clear H2
    end.

Ltac rank_lia :=
  repeat match goal with
    | a : (Z * Z * Z)%type |- _ => destruct a as [[? ?] ?]
    end;
  unfold sf_lt3, sf_le3 in *; lia.

Section FloatCompare.
Local Open Scope float_scope.
Variables x y z : float.

Lemma ltb_leb : (x <? y) = true -> (x <=? y) = true.
Proof.
  intros H. apply ltb_rank in H. destruct H as (a & b & Ha & Hb & Hab).
  apply leb_rank. exists a, b. repeat split; trivial. rank_lia.
Qed.

Lemma leb_not_ltb : (x <=? y) = true -> (y <? x) = false.
Proof.
  intros H. apply not_true_iff_false. intros H'. rank_facts. rank_lia.
Qed.

Lemma ltb_not_leb : (x <? y) = true -> (y <=? x) = false.
Proof.
  intros H. apply not_true_iff_false. intros H'. rank_facts. rank_lia.
Qed.

(** Below a constant that is itself below a lower bound of [z]. *)
Lemma ltb_leb_not_ltb : (x <? y) = true -> (y <=? z) = true -> (z <? x) = false.
Proof.
  intros H1 H2. apply not_true_iff_false. intros H'. rank_facts. rank_lia.
Qed.

Lemma ltb_leb_not_leb : (x <? y) = true -> (y <=? z) = true -> (z <=? x) = false.
Proof.
  intros H1 H2. apply not_true_iff_false. intros H'. rank_facts. rank_lia.
Qed.

(** Two floats that [=?] tells apart are different. *)
Lemma eqb_false_neq : (x =? x) = true -> (x =? y) = false -> x <> y.
Proof. intros Hx Hxy E. rewrite <- E in Hxy. congruence. Qed.

End FloatCompare.

(* ------------------------------------------------------------------ *)
(** * Rounding to decimals *)

Section Rounding.
Local Open Scope float_scope.

(** [round_half_even_div a b] is an integer nearest to [a / b], and the
    even one when two are equally near. *)
Lemma round_half_even_div_nearest (a b : Z) :
  (0 < b)%Z ->
  let n := Py.round_half_even_div a b in
  (Z.abs (2 * (n * b - a)) <= b)%Z /\
  (Z.abs (2 * (n * b - a)) = b -> Z.even n = true)%Z.
Proof.
  intros Hb. unfold Py.round_half_even_div. cbv zeta.
  pose proof (Z.div_mod a b ltac:(lia)) as Hdiv.
  pose proof (Z.mod_pos_bound a b Hb) as Hmod.
  destruct (Z.compare_spec (2 * (a mod b)) b) as [Heq | Hlt | Hgt].
  - destruct (Z.even (a / b)) eqn:Heven.
    + split; [ lia | trivial ].
    + split; [ lia | ]. intros _.
      rewrite Z.add_1_r, Z.even_succ, <- Z.negb_even, Heven. reflexivity.
  - split; lia.
  - split; lia.
Qed.

(** The results of the interpreter's [round] on some inputs: a tie that
    only looks like one (2.675 is below the decimal 2.675), true ties, a
    value just below a boundary of the bands, a negative value that rounds
    to minus zero. *)
Lemma round_samples :
  Py.round 2.675 2 = 2.67 /\
  Py.round 0.5 0 = 0 /\
  Py.round 1.5 0 = 2 /\
  Py.round 0.125 2 = 0.12 /\
  Py.round 0.29996 4 = 0.3 /\
  Py.round 0.233331 4 = 0.2333 /\
  Py.round (-0.00001) 4 = -0.0 /\
  Py.round 123456789012.34567 4 = 123456789012.3457.
Proof. repeat apply conj; vm_compute; reflexivity. Qed.

End Rounding.

(* ------------------------------------------------------------------ *)
(** * Interpretation bands and age decay *)

Section Interpretation.
Import XAlgorithmScorer Bands Decay.
Local Open Scope float_scope.

(** Resolve the tests of a chain of [if s <? c] on a score [s] bounded
    by the hypotheses. *)
Ltac resolve_tests :=
  repeat match goal with
    | H : (?s <? ?c) = true |- context [?s <? ?c] => rewrite H
    | H : (?c <=? ?s) = true |- context [?s <? ?c] =>
        rewrite (leb_not_ltb c s H)
    | H : (?c <=? ?s) = true |- context [?s <? ?c'] =>
        rewrite (ltb_leb_not_ltb c' c s eq_refl H)
    end.

(** C3: the interpretation of a score is the message of the band that
    contains it, the bands being left-inclusive and right-exclusive with
    boundaries 0.3, 0.6, 1.0, 1.5 and 2.0. *)
Theorem interpret_score_bands (s positive negative : float) (msg : string) :
  score_band s msg -> _interpret_score s positive negative = msg.
Proof.
  intros Hband. unfold _interpret_score.
  destruct Hband; resolve_tests; reflexivity.
Qed.

Lemma interpret_score_on_boundaries :
  _interpret_score 0.3 0 0 = MODERATE_LOW_REACH /\
  _interpret_score 2.0 0 0 = VIRAL_POTENTIAL.
Proof.
  split.
  - apply (interpret_score_bands 0.3 0 0 MODERATE_LOW_REACH).
    apply band_moderate_low; reflexivity.
  - apply (interpret_score_bands 2.0 0 0 VIRAL_POTENTIAL).
    apply band_viral; reflexivity.
Defined.

(** C4: the age multiplier is 1.0 up to age 0, 0.1 from age 48 on, and
    max(0.1, 1 - age/48) in between. *)
Theorem age_multiplier_decay (age_hours m : float) :
  age_decay age_hours m -> _calculate_age_multiplier age_hours = m.
Proof.
  intros Hage. unfold _calculate_age_multiplier.
  destruct Hage as [a H | a H | a H0 H48].
  - now rewrite H.
  - now rewrite (ltb_leb_not_leb 0 48 a eq_refl H), H.
  - now rewrite (ltb_not_leb 0 a H0), (ltb_not_leb a 48 H48).
Qed.

Lemma age_multiplier_samples :
  _calculate_age_multiplier 0 = 1.0 /\
  _calculate_age_multiplier 24 = 0.5 /\
  _calculate_age_multiplier 48 = 0.1 /\
  _calculate_age_multiplier 100 = 0.1.
Proof.
  split; [ | split; [ | split ] ].
  - apply (age_multiplier_decay 0 1.0). apply age_fresh. reflexivity.
  - apply (age_multiplier_decay 24 0.5).
    change 0.5 with (Py.max 0.1 (1 - 24 / 48)).
    apply age_linear; reflexivity.
  - apply (age_multiplier_decay 48 0.1). apply age_dead. reflexivity.
  - apply (age_multiplier_decay 100 0.1). apply age_dead. reflexivity.
Defined.

End Interpretation.

(* ------------------------------------------------------------------ *)
(** * Diversity multiplier *)

Section Diversity.
Import SignalWeight XAlgorithmScorer Decay.
Local Open Scope float_scope.

Lemma pow_as_iter (n : Z) :
  (0 <= n)%Z -> Py.pow DIVERSITY_BASE n = Nat.iter (Z.to_nat n) pow_step 1.
Proof.
  intros Hn. unfold Py.pow. destruct n as [ | p | p ]; try lia.
  - reflexivity.
  - simpl Z.iter. simpl Z.to_nat. apply Pos2Nat.inj_iter.
Qed.

(** After [POW_UNDERFLOW] factors the product is 0 and stays 0. *)
Lemma pow_underflow (k : nat) : Nat.iter (POW_UNDERFLOW + k) pow_step 1 = 0.
Proof.
  induction k as [ | k IH ].
  - vm_compute. reflexivity.
  - rewrite Nat.add_succ_r, Nat.iter_succ, IH. reflexivity.
Qed.

(** The powers from the third one up to the underflow, checked one by one. *)
Lemma pow_below_floor_checked :
  forallb (fun k => negb (DIVERSITY_FLOOR <? Nat.iter k pow_step 1))
          (seq 3 POW_UNDERFLOW) = true.
Proof. vm_compute. reflexivity. Qed.

Lemma pow_below_floor (k : nat) :
  (3 <= k)%nat -> (DIVERSITY_FLOOR <? Nat.iter k pow_step 1) = false.
Proof.
  intros Hk. destruct (Nat.lt_ge_cases k POW_UNDERFLOW) as [Hlt | Hge].
  - apply negb_true_iff.
    apply (proj1 (forallb_forall _ _) pow_below_floor_checked k).
    apply in_seq. unfold POW_UNDERFLOW in *. lia.
  - replace k with (POW_UNDERFLOW + (k - POW_UNDERFLOW))%nat by lia.
    rewrite pow_underflow. reflexivity.
Qed.

(** The multiplier takes four values only. *)
Lemma diversity_values (p : Z) :
  _calculate_diversity_multiplier p = diversity_table p.
Proof.
  unfold _calculate_diversity_multiplier, diversity_table.
  destruct (Z.leb_spec p 1) as [Hle | Hgt]; [ reflexivity | ].
  destruct (Z.eqb_spec p 2) as [-> | H2]; [ reflexivity | ].
  destruct (Z.eqb_spec p 3) as [-> | H3]; [ reflexivity | ].
  rewrite pow_as_iter by lia. unfold Py.max.
  rewrite pow_below_floor by lia. reflexivity.
Qed.

(** A position whose predecessor fits a double gets its multiplier. *)
Lemma diversity_multiplier_returns (p : Z) :
  (p - 1 < Py.FLOAT_LIMIT)%Z ->
  _calculate_diversity_multiplier_raising p
  = Py.Ok (_calculate_diversity_multiplier p).
Proof.
  intros Hp.
  unfold _calculate_diversity_multiplier_raising,
    _calculate_diversity_multiplier.
  destruct (Z.leb_spec p 1) as [Hle | Hgt]; [ reflexivity | ].
  unfold Py.pow_checked, Py.float_of_int_checked.
  destruct (Z.ltb_spec (Z.abs (p - 1)) Py.FLOAT_LIMIT) as [Hlt | Hge].
  - reflexivity.
  - rewrite Z.abs_eq in Hge by lia. lia.
Qed.

(** From the third power on, (9/20)^n is below 1/10. *)
Lemma power_below_tenth (k : nat) :
  (10 * 9 ^ (3 + Z.of_nat k) <= 20 ^ (3 + Z.of_nat k))%Z.
Proof.
  induction k as [ | k IH ].
  - vm_compute. discriminate.
  - rewrite Nat2Z.inj_succ, Z.add_succ_r, !Z.pow_succ_r by lia.
    assert (0 < 9 ^ (3 + Z.of_nat k))%Z by (apply Z.pow_pos_nonneg; lia).
    lia.
Qed.

(** The multiplier of the specification takes the same values. *)
Lemma nearest_max_power_values (p : Z) :
  (1 < p)%Z -> nearest_max_power (p - 1) = diversity_table p.
Proof.
  intros Hp. unfold diversity_table.
  destruct (Z.leb_spec p 1) as [Hle | _]; [ lia | ].
  destruct (Z.eqb_spec p 2) as [-> | H2]; [ vm_compute; reflexivity | ].
  destruct (Z.eqb_spec p 3) as [-> | H3]; [ vm_compute; reflexivity | ].
  unfold nearest_max_power.
  replace (p - 1)%Z with (3 + Z.of_nat (Z.to_nat (p - 4)))%Z by lia.
  destruct (Z.leb_spec (10 * 9 ^ (3 + Z.of_nat (Z.to_nat (p - 4))))
                       (20 ^ (3 + Z.of_nat (Z.to_nat (p - 4))))) as [_ | Hlt].
  - vm_compute. reflexivity.
  - pose proof (power_below_tenth (Z.to_nat (p - 4))). lia.
Qed.

(** C5, the claim as it stands: "for every post_position" the multiplier
    lies in [0.10, 1.0].  A position is an [int] of any size, and one
    whose predecessor does not fit a double gets no multiplier: the power
    raises [OverflowError]. *)
Lemma diversity_multiplier_overflows :
  _calculate_diversity_multiplier_raising (Py.FLOAT_LIMIT + 1)
  = Py.Raise Py.OverflowError /\
  ~ (forall post_position : Z,
       exists multiplier,
         _calculate_diversity_multiplier_raising post_position
         = Py.Ok multiplier /\
         (0.10 <=? multiplier) = true /\ (multiplier <=? 1.0) = true).
Proof.
  assert (H : _calculate_diversity_multiplier_raising (Py.FLOAT_LIMIT + 1)
              = Py.Raise Py.OverflowError) by (vm_compute; reflexivity).
  split; [ exact H | ].
  intros Hall. destruct (Hall (Py.FLOAT_LIMIT + 1)%Z) as (m & Hm & _).
  rewrite H in Hm. discriminate Hm.
Qed.

(** C5, amended: for positions [p <= q] whose predecessors fit a double
    (up to [FLOAT_LIMIT], the last one the power accepts) the call
    returns; the multiplier is 1.0 up to position 1 and
    max(0.10, 0.45^(position - 1)) after it, both as the code computes the
    power and as the double nearest to the greater of 1/10 and
    (9/20)^(position - 1); it lies in [0.10, 1.0], is exactly 1.0 at
    position 1, and does not increase with the position. *)
Theorem diversity_multiplier_properties (p q : Z) :
  (p <= q)%Z -> (q - 1 < Py.FLOAT_LIMIT)%Z ->
  exists mp mq,
    _calculate_diversity_multiplier_raising p = Py.Ok mp /\
    _calculate_diversity_multiplier_raising q = Py.Ok mq /\
    mp = _calculate_diversity_multiplier p /\
    mq = _calculate_diversity_multiplier q /\
    ((p <= 1)%Z -> mp = 1.0) /\
    ((1 < p)%Z ->
     mp = Py.max DIVERSITY_FLOOR (Py.pow DIVERSITY_BASE (p - 1)) /\
     mp = nearest_max_power (p - 1)) /\
    (0.10 <=? mp) = true /\
    (mp <=? 1.0) = true /\
    _calculate_diversity_multiplier_raising 1 = Py.Ok 1.0 /\
    (mq <=? mp) = true.
Proof.
  intros Hpq Hq.
  exists (_calculate_diversity_multiplier p),
    (_calculate_diversity_multiplier q).
  split; [ apply diversity_multiplier_returns; lia | ].
  split; [ apply diversity_multiplier_returns; exact Hq | ].
  split; [ reflexivity | ]. split; [ reflexivity | ].
  split; [ | split; [ | split; [ | split; [ | split ] ] ] ].
  - intros Hp. unfold _calculate_diversity_multiplier.
    destruct (Z.leb_spec p 1); [ reflexivity | lia ].
  - intros Hp. split.
    + unfold _calculate_diversity_multiplier.
      destruct (Z.leb_spec p 1); [ lia | reflexivity ].
    + rewrite nearest_max_power_values by exact Hp. apply diversity_values.
  - rewrite diversity_values. unfold diversity_table.
    destruct (p <=? 1)%Z, (p =? 2)%Z, (p =? 3)%Z; reflexivity.
  - rewrite diversity_values. unfold diversity_table.
    destruct (p <=? 1)%Z, (p =? 2)%Z, (p =? 3)%Z; reflexivity.
  - reflexivity.
  - rewrite !diversity_values. unfold diversity_table.
    destruct (Z.leb_spec p 1), (Z.eqb_spec p 2), (Z.eqb_spec p 3),
      (Z.leb_spec q 1), (Z.eqb_spec q 2), (Z.eqb_spec q 3);
      try reflexivity; lia.
Qed.

(** The second, the third and the seventh post of a day, and the last
    position the power accepts. *)
Lemma diversity_multiplier_at_2_3_and_7 :
  _calculate_diversity_multiplier_raising 2 = Py.Ok 0.45 /\
  _calculate_diversity_multiplier_raising 3 = Py.Ok 0.2025 /\
  _calculate_diversity_multiplier_raising 7 = Py.Ok 0.10 /\
  exists last,
    _calculate_diversity_multiplier_raising Py.FLOAT_LIMIT = Py.Ok last /\
    (last <=? 0.10) = true.
Proof.
  destruct (diversity_multiplier_properties 2 3)
    as (m2 & m3 & H2 & _ & _ & _ & _ & P2 & _);
    [ lia | vm_compute; reflexivity | ].
  destruct (diversity_multiplier_properties 3 7)
    as (m3' & m7 & H3 & _ & _ & _ & _ & P3 & _);
    [ lia | vm_compute; reflexivity | ].
  destruct (diversity_multiplier_properties 7 Py.FLOAT_LIMIT)
    as (m7' & last & H7 & Hlast & _ & _ & _ & P7 & _ & _ & _ & Hmono);
    [ vm_compute; discriminate | unfold Py.FLOAT_LIMIT; lia | ].
  destruct P2 as (_ & P2); [ lia | ].
  destruct P3 as (_ & P3); [ lia | ].
  destruct P7 as (_ & P7); [ lia | ].
  split; [ rewrite H2, P2; vm_compute; reflexivity | ].
  split; [ rewrite H3, P3; vm_compute; reflexivity | ].
  split; [ rewrite H7, P7; vm_compute; reflexivity | ].
  exists last. split; [ exact Hlast | ].
  rewrite P7 in Hmono. exact Hmono.
Defined.

End Diversity.

(* ------------------------------------------------------------------ *)
(** * The score calculator *)

Section Calculator.
Import SignalWeight XAlgorithmScorer Samples.
Local Open Scope float_scope.

(** What [calculate_score] returns, in terms of the values it rounds. *)
Lemma calculate_score_unfold (probs : EngagementProbabilities)
    (modifiers : ContentModifiers) :
  calculate_score probs modifiers =
  Build_ScoreResult
    (Py.round (Unrounded.final_score probs modifiers) 4)
    (Py.round (Unrounded.positive_score probs modifiers) 4)
    (Py.round (Unrounded.negative_score probs) 4)
    (Py.round (Unrounded.diversity_multiplier modifiers) 4)
    (Py.round (Unrounded.oon_multiplier modifiers) 4)
    (Py.round (Unrounded.age_multiplier modifiers) 4)
    (has_video modifiers && (0 <? video_view probs))
    (_interpret_score (Unrounded.final_score probs modifiers)
                      (Unrounded.positive_score probs modifiers)
                      (Unrounded.negative_score probs))
    (_generate_recommendations probs modifiers
                               (Unrounded.final_score probs modifiers)).
Proof.
  unfold calculate_score, apply_video_bonus, Unrounded.final_score,
    Unrounded.positive_score.
  destruct (has_video modifiers && (0 <? video_view probs)); reflexivity.
Qed.

(** C1, as stated, fails: with favorite = 0.33333 out of network the
    returned fields are 0.2333 and 0.3333, 0, 1, 0.7, 1, and
    0.3333 * 0.7 is not 0.2333. *)
Lemma rounded_fields_break_product :
  let r := calculate_score (only_favorite 0.33333) out_of_network in
  final_score r
  <> (positive_score r - negative_score r)
     * diversity_multiplier r * oon_multiplier r * age_multiplier r.
Proof. apply eqb_false_neq; vm_compute; reflexivity. Qed.

(** C1, amended: the product formula holds between the values before
    rounding, the positive one including the video bonus when it was
    applied, and every numeric field of the result is the corresponding
    value rounded to 4 decimals. *)
Theorem score_result_fields (probs : EngagementProbabilities)
    (modifiers : ContentModifiers) :
  let r := calculate_score probs modifiers in
  let P := if video_bonus_applied r
           then positive_contributions probs * VIDEO_BONUS
           else positive_contributions probs in
  let N := negative_contributions probs in
  let d := _calculate_diversity_multiplier (post_position modifiers) in
  let o := if is_out_of_network modifiers then OON_PENALTY else 1.0 in
  let a := _calculate_age_multiplier (post_age_hours modifiers) in
  final_score r = Py.round ((P - N) * d * o * a) 4 /\
  positive_score r = Py.round P 4 /\
  negative_score r = Py.round N 4 /\
  diversity_multiplier r = Py.round d 4 /\
  oon_multiplier r = Py.round o 4 /\
  age_multiplier r = Py.round a 4.
Proof.
  cbv zeta. rewrite calculate_score_unfold. simpl.
  unfold Unrounded.final_score, Unrounded.positive_score.
  destruct (has_video modifiers && (0 <? video_view probs));
    repeat apply conj; reflexivity.
Qed.

(** C2, as stated, fails: the interpretation of the score 1.0 is not the
    MODERATE REACH message. *)
Lemma favorite_one_is_not_moderate :
  let r := calculate_score (only_favorite 1.0) ContentModifiers_default in
  ~ (positive_score r = 1.0 /\ final_score r = 1.0 /\
     interpretation r = MODERATE_REACH).
Proof. cbv zeta. intros (_ & _ & H). vm_compute in H. discriminate H. Qed.

(** C2, amended: with favorite = 1.0 alone, position 1, age 0, in network
    and no video, the positive and the final score are 1.0 and the
    interpretation is the GOOD REACH message. *)
Theorem favorite_one_is_good_reach :
  let r := calculate_score (only_favorite 1.0) ContentModifiers_default in
  positive_score r = 1.0 /\ final_score r = 1.0 /\
  interpretation r = GOOD_REACH.
Proof. cbv zeta. repeat apply conj; vm_compute; reflexivity. Qed.

(** C6: the video bonus is applied exactly when [has_video] is set and
    [video_view] is positive; exactly then the positive score is the
    weighted sum times 1.15, and otherwise it is the plain weighted sum;
    a video flag with probability 0 yields a result without the bonus. *)
Theorem video_bonus_iff (probs : EngagementProbabilities)
    (modifiers : ContentModifiers) :
  let r := calculate_score probs modifiers in
  video_bonus_applied r = has_video modifiers && (0 <? video_view probs) /\
  positive_score r
  = Py.round (if has_video modifiers && (0 <? video_view probs)
              then positive_contributions probs * 1.15
              else positive_contributions probs) 4 /\
  video_bonus_applied (calculate_score (only_favorite 1.0) with_video) = false.
Proof.
  cbv zeta. rewrite calculate_score_unfold. simpl.
  unfold Unrounded.positive_score.
  repeat apply conj; reflexivity.
Qed.

(** C10: the interpretation is computed from the score before rounding,
    so it can disagree with the band of the score returned.  With
    favorite = 0.29996 the unrounded score is 0.29996 and the score
    returned is 0.3, whose band is MODERATE-LOW REACH, while the
    interpretation returned is LOW REACH. *)
Theorem interpretation_precedes_rounding :
  (forall probs modifiers,
     interpretation (calculate_score probs modifiers)
     = _interpret_score (Unrounded.final_score probs modifiers)
                        (Unrounded.positive_score probs modifiers)
                        (Unrounded.negative_score probs)) /\
  exists probs modifiers,
    let r := calculate_score probs modifiers in
    Unrounded.final_score probs modifiers = 0.29996 /\
    final_score r = 0.3 /\
    interpretation r = LOW_REACH /\
    Bands.score_band (final_score r) MODERATE_LOW_REACH /\
    interpretation r
    <> _interpret_score (final_score r) (positive_score r) (negative_score r).
Proof.
  split.
  - intros probs modifiers. now rewrite calculate_score_unfold.
  - exists (only_favorite 0.29996), ContentModifiers_default. cbv zeta.
    assert (Hf : final_score (calculate_score (only_favorite 0.29996)
                                ContentModifiers_default) = 0.3)
      by (vm_compute; reflexivity).
    rewrite Hf. repeat apply conj.
    + vm_compute. reflexivity.
    + reflexivity.
    + vm_compute. reflexivity.
    + apply Bands.band_moderate_low; reflexivity.
    + vm_compute. discriminate.
Qed.

End Calculator.

(* ------------------------------------------------------------------ *)
(** * Recommendations *)

Section Recommendations.
Import XAlgorithmScorer Rules Samples.
Local Open Scope float_scope.

(** The appends of [_generate_recommendations] against the rule list, for
    any eight conditions and messages. *)
Lemma appends_are_fired_rules
    (c1 c2 c3 c4 c5 c6 c7 c8 : bool) (m1 m2 m3 m4 m5 m6 m7 m8 : string) :
  append_if c8 m8 (append_if c7 m7 (append_if c6 m6 (append_if c5 m5
    (append_if c4 m4 (append_if c3 m3 (append_if c2 m2
      (append_if c1 m1 [])))))))
  = fired [(c1, m1); (c2, m2); (c3, m3); (c4, m4);
           (c5, m5); (c6, m6); (c7, m7); (c8, m8)].
Proof.
  destruct c1, c2, c3, c4, c5, c6, c7, c8; reflexivity.
Qed.

Lemma generate_recommendations_expected (probs : EngagementProbabilities)
    (modifiers : ContentModifiers) (score : float) :
  _generate_recommendations probs modifiers score
  = expected probs modifiers score.
Proof.
  unfold _generate_recommendations, expected, rules. cbv zeta.
  rewrite appends_are_fired_rules.
  match goal with |- context [fired ?l] => generalize (fired l) end.
  intros recs. unfold append_if.
  destruct recs as [ | r recs ]; simpl.
  - destruct (1.5 <? score); reflexivity.
  - rewrite andb_false_r. reflexivity.
Qed.

(** [str(n)] is a numeral of [n]. *)
Lemma str_of_int_value (n : Z) : numeral_value (str_of_int n) = Some n.
Proof.
  unfold numeral_value, str_of_int. rewrite NilZero.isi.
  - simpl. now rewrite DecimalZ.of_to.
  - destruct n as [ | p | p ]; simpl; try discriminate.
    intros E. injection E. apply DecimalPos.Unsigned.to_uint_nonnil.
  - destruct n as [ | p | p ]; simpl; try discriminate.
    intros E. injection E. apply DecimalPos.Unsigned.to_uint_nonnil.
Qed.

(** C9: for the inputs on which [calculate_score] returns, the
    recommendations are the messages of the eight rules whose condition
    holds, in the rules' order and without deduplication; when none fires
    and the score exceeds 1.5 the list is the single well-optimized
    message.  The score is the final score before rounding.  The spacing
    message is the sentence of the source around a decimal numeral of the
    position. *)
Theorem recommendations_follow_rules (probs : EngagementProbabilities)
    (modifiers : ContentModifiers) :
  (post_position modifiers - 1 < Py.FLOAT_LIMIT)%Z ->
  calculate_score_raising probs modifiers
  = Py.Ok (calculate_score probs modifiers) /\
  recommendations (calculate_score probs modifiers)
  = expected probs modifiers (Unrounded.final_score probs modifiers) /\
  (forall score,
     fired (rules probs modifiers) <> [] ->
     _generate_recommendations probs modifiers score
     = fired (rules probs modifiers)) /\
  (forall score,
     fired (rules probs modifiers) = [] -> (1.5 <? score) = true ->
     _generate_recommendations probs modifiers score = [REC_WELL_OPTIMIZED]) /\
  (exists numeral,
     REC_SPACING (post_position modifiers)
     = ("You're on post #" ++ numeral
        ++ " today. Consider spacing posts for better reach.")%string /\
     numeral_value numeral = Some (post_position modifiers)).
Proof.
  intros Hposition.
  split; [ | split; [ | split; [ | split ] ] ].
  - unfold calculate_score_raising.
    rewrite diversity_multiplier_returns by exact Hposition. reflexivity.
  - rewrite calculate_score_unfold. simpl.
    apply generate_recommendations_expected.
  - intros score Hfired. rewrite generate_recommendations_expected.
    unfold expected. destruct (fired (rules probs modifiers)); congruence.
  - intros score Hfired Hscore. rewrite generate_recommendations_expected.
    unfold expected. now rewrite Hfired, Hscore.
  - exists (str_of_int (post_position modifiers)).
    split; [ reflexivity | apply str_of_int_value ].
Qed.

(** A post every rule objects to, one no rule objects to, and one that
    four rules object to. *)
Lemma recommendations_samples :
  recommendations (calculate_score troubled_probs fifth_post)
  = [ "WARNING: High negative signal probability. Review content for controversial elements.";
      "Consider making content more engaging or relevant to your audience.";
      "You're on post #5 today. Consider spacing posts for better reach.";
      "Out-of-network content receives ~30% penalty. Build your follower base.";
      "Post is aging. Content has best reach within first 24 hours.";
      "Consider adding native video for additional algorithmic boost.";
      "Low predicted likes. Focus on creating more likeable content (primary metric).";
      "Low shareability. Create content worth sharing privately." ]%string /\
  recommendations (calculate_score well_optimized_probs with_video)
  = [ "Content is well-optimized! Continue this approach."%string ] /\
  _generate_recommendations (only_favorite 0.1) out_of_network 2.0
  = [ "Out-of-network content receives ~30% penalty. Build your follower base.";
      "Consider adding native video for additional algorithmic boost.";
      "Low predicted likes. Focus on creating more likeable content (primary metric).";
      "Low shareability. Create content worth sharing privately." ]%string.
Proof.
  destruct (recommendations_follow_rules troubled_probs fifth_post)
    as (_ & Hall & _); [ vm_compute; reflexivity | ].
  destruct (recommendations_follow_rules well_optimized_probs with_video)
    as (_ & Hcalc & _ & Hwell & _); [ vm_compute; reflexivity | ].
  destruct (recommendations_follow_rules (only_favorite 0.1) out_of_network)
    as (_ & _ & Hfired & _); [ vm_compute; reflexivity | ].
  split; [ | split ].
  - rewrite Hall. vm_compute. reflexivity.
  - rewrite Hcalc. vm_compute. reflexivity.
  - rewrite Hfired; [ vm_compute; reflexivity | discriminate ].
Defined.

End Recommendations.

(* ------------------------------------------------------------------ *)
(** * The content analyzer *)

Section Analyzer.
Import ContentAnalyzer Summary Samples.
Local Open Scope float_scope.

Lemma clamp_range (x : float) :
  (0 <=? clamp x) = true /\ (clamp x <=? 1) = true.
Proof.
  unfold clamp, Py.max, Py.min.
  destruct (x <? 1) eqn:Hhi.
  - destruct (0 <? x) eqn:Hlo.
    + split; now apply ltb_leb.
    + split; reflexivity.
  - split; reflexivity.
Qed.

(** Reading an attribute after an assignment. *)
Lemma getattr_setattr (probs : EngagementProbabilities) (a b : Attr.t)
    (v : float) :
  getattr (setattr probs a v) b = if Attr.eqb a b then v else getattr probs b.
Proof. destruct b; reflexivity. Qed.

(** The normalisation loop clamps every field, each on its own. *)
Lemma normalize_all (probs : EngagementProbabilities) (a : Attr.t) :
  getattr (fold_left normalize_attr ATTRS probs) a = clamp (getattr probs a).
Proof. destruct probs, a; reflexivity. Qed.

(** The probabilities [analyze_text] returns come out of that loop. *)
Lemma analyze_text_normalized (text : string) :
  exists probs, fst (analyze_text text) = fold_left normalize_attr ATTRS probs.
Proof.
  unfold analyze_text. cbv zeta.
  destruct (any_in IMAGE_MARKERS (Str.lower text));
    destruct (any_in VIDEO_MARKERS (Str.lower text));
    simpl fst; eexists; reflexivity.
Qed.

(** C7: every probability field [analyze_text] returns lies in [0, 1];
    on the text that triggers both the controversy and the negative-trigger
    rule, [not_interested] and [mute] are the clamped sums of the two
    rules' contributions. *)
Theorem analyze_text_probabilities_in_range (text : string) (a : Attr.t) :
  (0 <=? getattr (fst (analyze_text text)) a) = true /\
  (getattr (fst (analyze_text text)) a <=? 1) = true /\
  not_interested (fst (analyze_text "hot take")) = 0.05 /\
  not_interested (fst (analyze_text "this is terrible, fight me")) = 0.1 /\
  not_interested (fst (analyze_text HOT_TAKE)) = clamp (0.05 + 0.1) /\
  mute (fst (analyze_text "hot take")) = 0.02 /\
  mute (fst (analyze_text "this is terrible, fight me")) = 0.06 /\
  mute (fst (analyze_text HOT_TAKE)) = clamp (0.02 + 0.06) /\
  (clamp (0.05 + 0.1) <=? 1) = true /\ (clamp (0.02 + 0.06) <=? 1) = true.
Proof.
  destruct (analyze_text_normalized text) as (probs & ->).
  rewrite normalize_all.
  destruct (clamp_range (getattr probs a)) as (Hlo & Hhi).
  repeat apply conj; try assumption; vm_compute; reflexivity.
Qed.

End Analyzer.

(* ------------------------------------------------------------------ *)
(** * The batch analyzer *)

Section Batch.
Import XAlgorithmScorer ContentAnalyzer BatchAnalyzer Summary.
Variable is_same_author : bool.

(** The loop that appends one entry per post builds the list of the
    entries. *)
Lemma results_loop (l : list (Z * string)) (acc : list PostEntry.t) :
  fold_left
    (fun (results : list PostEntry.t) '(i, post) =>
       results ++ [analyze_post is_same_author i post]) l acc
  = acc ++ map (fun ip => analyze_post is_same_author (fst ip) (snd ip)) l.
Proof.
  revert acc. induction l as [ | [i post] l IH ]; intros acc; simpl.
  - now rewrite app_nil_r.
  - rewrite IH, <- app_assoc. reflexivity.
Qed.

Lemma entry_score (k : nat) (post : string) :
  PostEntry.score (analyze_post is_same_author (Z.of_nat k) post)
  = individual_final_score is_same_author k post.
Proof.
  unfold analyze_post, individual_final_score.
  destruct (analyze_text post) as [probs modifiers]. reflexivity.
Qed.

(** The scores of the entries, for the posts enumerated from [n]. *)
Lemma entry_scores_from (posts : list string) (n : nat) :
  map PostEntry.score
    (map (fun ip => analyze_post is_same_author (fst ip) (snd ip))
         (enumerate_from (Z.of_nat n) posts))
  = map (fun k => individual_final_score is_same_author k
                    (nth (k - n) posts ""%string))
        (seq n (List.length posts)).
Proof.
  revert n. induction posts as [ | post rest IH ]; intros n; simpl.
  - reflexivity.
  - f_equal.
    + rewrite Nat.sub_diag. apply entry_score.
    + replace (Z.of_nat n + 1) with (Z.of_nat (S n)) by lia.
      rewrite IH. apply map_ext_in. intros k Hk. apply in_seq in Hk.
      replace (k - n)%nat with (S (k - S n)) by lia. reflexivity.
Qed.

Lemma entry_scores (posts : list string) :
  map PostEntry.score
    (map (fun ip => analyze_post is_same_author (fst ip) (snd ip))
         (enumerate posts))
  = individual_final_scores posts is_same_author.
Proof.
  unfold enumerate, individual_final_scores.
  change 0 with (Z.of_nat 0). rewrite (entry_scores_from posts 0). apply map_ext. intros k.
  now rewrite Nat.sub_0_r.
Qed.


(** Division by the length of a list that is not empty does not raise. *)
Lemma truediv_by_length (x : float) (A : Type) (a : A) (l : list A) :
  Py.truediv x (len (a :: l))
  = Py.Ok (x / Py.float_of_int (len (a :: l)))%float.
Proof.
  unfold Py.truediv, len. simpl List.length.
  destruct (Z.eqb_spec (Z.of_nat (S (List.length l))) 0); [ lia | reflexivity ].
Qed.

(** [sum] adds up as the total of the specification does. *)
Lemma sum_from (xs : list float) (acc : float) :
  fold_left (fun acc x => (acc + x)%float) xs acc = total_from acc xs.
Proof.
  revert acc. induction xs as [ | x xs IH ]; intros acc; simpl;
    [ reflexivity | apply IH ].
Qed.

Lemma sum_total (xs : list float) : Py.sum xs = total_from 0 xs.
Proof. unfold Py.sum. apply sum_from. Qed.

Lemma batch_recommendation_returns (results : list PostEntry.t) :
  exists msg, _batch_recommendation results is_same_author = Py.Ok msg.
Proof.
  unfold _batch_recommendation.
  destruct results as [ | r results ]; simpl truthy; simpl negb; cbv iota.
  - eexists; reflexivity.
  - destruct (is_same_author && (3 <? len (r :: results))).
    + eexists; reflexivity.
    + rewrite truediv_by_length. simpl Py.bind.
      match goal with |- context [(?x <? 0.5)%float] =>
        destruct (x <? 0.5)%float; [ | destruct (x <? 1.0)%float ]
      end; eexists; reflexivity.
Qed.


End Batch.

Section BatchSamples.
Import XAlgorithmScorer ContentAnalyzer BatchAnalyzer Summary.
Local Open Scope string_scope.


End BatchSamples.

(* ------------------------------------------------------------------ *)
(** * Further properties of the scorer *)

Section FloatOrderMore.
Local Open Scope float_scope.
Variables x y z : float.

Lemma leb_ltb_trans : (x <=? y) = true -> (y <? z) = true -> (x <? z) = true.
Proof.
  intros H1 H2. rank_facts. apply ltb_rank.
  do 2 eexists. repeat split; try eassumption. rank_lia.
Qed.

Lemma leb_trans : (x <=? y) = true -> (y <=? z) = true -> (x <=? z) = true.
Proof.
  intros H1 H2. rank_facts. apply leb_rank.
  do 2 eexists. repeat split; try eassumption. rank_lia.
Qed.

(** Two values that are not NaN compare one way or the other. *)
Lemma ltb_or_leb (a b : Z * Z * Z) :
  float_rank x = Some a -> float_rank y = Some b ->
  (x <? y) = true \/ (y <=? x) = true.
Proof.
  intros Hx Hy.
  assert (sf_lt3 a b \/ sf_le3 b a) as [H | H] by rank_lia.
  - left. apply ltb_rank. eauto.
  - right. apply leb_rank. eauto.
Qed.

End FloatOrderMore.

Section ScorerMore.
Import SignalWeight XAlgorithmScorer Decay Rules Reach.
Local Open Scope float_scope.

(** X1: whatever the age, NaN and the infinities included, the age
    multiplier is at least the floor 0.1. *)
Theorem age_multiplier_floor (age_hours : float) :
  (0.1 <=? _calculate_age_multiplier age_hours) = true.
Proof.
  unfold _calculate_age_multiplier, Py.max.
  destruct (age_hours <=? 0); [ reflexivity | ].
  destruct (48 <=? age_hours); [ reflexivity | ].
  destruct (0.1 <? 1 - age_hours / 48) eqn:H.
  - now apply ltb_leb.
  - reflexivity.
Qed.

(** X2: the second post of a day keeps 45% of its score and the third
    20.25%; from the fourth post on, as far as the power accepts the
    position, the multiplier is exactly the floor 0.10, below the 20% the
    batch warning speaks of, which the third post is not. *)
Theorem diversity_floor_from_fourth_post (p : Z) :
  (4 <= p)%Z -> (p - 1 < Py.FLOAT_LIMIT)%Z ->
  _calculate_diversity_multiplier_raising p = Py.Ok DIVERSITY_FLOOR /\
  _calculate_diversity_multiplier p = DIVERSITY_FLOOR /\
  (_calculate_diversity_multiplier p <? 0.2) = true /\
  _calculate_diversity_multiplier_raising 2 = Py.Ok 0.45 /\
  _calculate_diversity_multiplier_raising 3 = Py.Ok 0.2025 /\
  (_calculate_diversity_multiplier 3 <? 0.2) = false.
Proof.
  intros Hp Hlimit. rewrite (diversity_multiplier_returns p Hlimit).
  rewrite !diversity_values. unfold diversity_table.
  destruct (Z.leb_spec p 1); [ lia | ].
  destruct (Z.eqb_spec p 2); [ lia | ].
  destruct (Z.eqb_spec p 3); [ lia | ].
  repeat apply conj; reflexivity.
Qed.

Lemma diversity_floor_at_7 :
  _calculate_diversity_multiplier_raising 7 = Py.Ok 0.1.
Proof.
  apply (diversity_floor_from_fourth_post 7); [ lia | vm_compute; reflexivity ].
Defined.

(** X3: a greater score never gets a weaker interpretation. *)
Theorem interpretation_monotone (s1 s2 p1 n1 p2 n2 : float) :
  (s1 <=? s2) = true ->
  (level (_interpret_score s1 p1 n1) <= level (_interpret_score s2 p2 n2))%nat.
Proof.
  intros Hle.
  assert (Hc : forall c, (s2 <? c) = true -> (s1 <? c) = true)
    by (intros c; apply leb_ltb_trans; exact Hle).
  unfold _interpret_score.
  destruct (s2 <? 0.3) eqn:H1; [ rewrite (Hc _ H1); vm_compute; lia | ].
  destruct (s2 <? 0.6) eqn:H2;
    [ rewrite (Hc _ H2); destruct (s1 <? 0.3); vm_compute; lia | ].
  destruct (s2 <? 1.0) eqn:H3;
    [ rewrite (Hc _ H3); destruct (s1 <? 0.3), (s1 <? 0.6); vm_compute; lia | ].
  destruct (s2 <? 1.5) eqn:H4;
    [ rewrite (Hc _ H4);
      destruct (s1 <? 0.3), (s1 <? 0.6), (s1 <? 1.0); vm_compute; lia | ].
  destruct (s2 <? 2.0) eqn:H5;
    [ rewrite (Hc _ H5);
      destruct (s1 <? 0.3), (s1 <? 0.6), (s1 <? 1.0), (s1 <? 1.5);
      vm_compute; lia | ].
  destruct (s1 <? 0.3), (s1 <? 0.6), (s1 <? 1.0), (s1 <? 1.5), (s1 <? 2.0);
    vm_compute; lia.
Qed.

Lemma interpretation_monotone_sample :
  (level (_interpret_score 0.59 0 0) <= level (_interpret_score 0.6 0 0))%nat.
Proof. apply interpretation_monotone. reflexivity. Defined.

End ScorerMore.

Section RecommendationsMore.
Import XAlgorithmScorer Rules.
Local Open Scope float_scope.

Lemma fired_iff (l : list (bool * string)) (m : string) :
  In m (fired l) <-> In (true, m) l.
Proof.
  unfold fired. rewrite in_map_iff. split.
  - intros ([c m'] & Hm & Hin). apply filter_In in Hin. simpl in *.
    destruct Hin as (Hin & Hc). now subst.
  - intros Hin. exists (true, m). split; [ reflexivity | ].
    apply filter_In. now split.
Qed.

(** In a rule list without a repeated message, a message belongs to one
    rule only. *)
Lemma message_names_rule (l : list (bool * string)) (c c' : bool) (m : string) :
  NoDup (map snd l) -> In (c, m) l -> In (c', m) l -> c = c'.
Proof.
  induction l as [ | [c0 m0] l IH ]; simpl; intros Hnd H1 H2; [ easy | ].
  inversion Hnd as [ | ? ? Hnotin Hnd' ]; subst.
  destruct H1 as [H1 | H1], H2 as [H2 | H2].
  - congruence.
  - inversion H1; subst. exfalso. apply Hnotin.
    apply in_map_iff. now exists (c', m).
  - inversion H2; subst. exfalso. apply Hnotin.
    apply in_map_iff. now exists (c, m).
  - now apply IH.
Qed.

Ltac unfold_messages :=
  unfold REC_NEGATIVE, REC_NOT_INTERESTED, REC_SPACING, REC_OON, REC_AGING,
    REC_VIDEO, REC_LIKES, REC_SHARE, REC_WELL_OPTIMIZED in *; simpl in *.

Lemma rule_messages_distinct (probs : EngagementProbabilities)
    (modifiers : ContentModifiers) :
  NoDup (map snd (rules probs modifiers)).
Proof.
  unfold rules. simpl map.
  repeat (constructor; [ unfold_messages; intuition discriminate | ]).
  constructor.
Qed.

Lemma well_optimized_is_no_rule (probs : EngagementProbabilities)
    (modifiers : ContentModifiers) :
  ~ In REC_WELL_OPTIMIZED (map snd (rules probs modifiers)).
Proof.
  unfold rules. simpl map. unfold_messages. intuition discriminate.
Qed.

(** X4: the message of each of the eight rules is among the
    recommendations exactly when the rule's condition holds, whatever the
    score and the other rules. *)
Theorem recommendation_iff_rule (probs : EngagementProbabilities)
    (modifiers : ContentModifiers) (score : float) (c : bool) (m : string) :
  In (c, m) (rules probs modifiers) ->
  (In m (_generate_recommendations probs modifiers score) <-> c = true).
Proof.
  intros Hrule. rewrite generate_recommendations_expected. unfold expected.
  split.
  - intros Hin.
    assert (Hfired : In m (fired (rules probs modifiers))).
    { destruct (fired (rules probs modifiers)) as [ | r recs ]; [ | exact Hin ].
      exfalso. apply (well_optimized_is_no_rule probs modifiers).
      destruct (1.5 <? score); [ | easy ].
      destruct Hin as [<- | []].
      apply in_map_iff. now exists (c, REC_WELL_OPTIMIZED). }
    apply fired_iff in Hfired.
    apply (message_names_rule _ c true m (rule_messages_distinct _ _) Hrule Hfired).
  - intros ->. apply fired_iff in Hrule.
    destruct (fired (rules probs modifiers)); [ easy | exact Hrule ].
Qed.

Lemma recommendation_iff_rule_sample :
  In REC_OON (_generate_recommendations Samples.well_optimized_probs
                Samples.out_of_network 2.5).
Proof.
  apply (recommendation_iff_rule Samples.well_optimized_probs
           Samples.out_of_network 2.5 true REC_OON); [ | reflexivity ].
  unfold rules. simpl. tauto.
Defined.

(** X5: the well-optimized message never comes with another
    recommendation: it is in the list exactly when no rule holds and the
    score exceeds 1.5, and then it is the whole list; and there are never
    more than eight recommendations. *)
Theorem well_optimized_stands_alone (probs : EngagementProbabilities)
    (modifiers : ContentModifiers) (score : float) :
  let recs := _generate_recommendations probs modifiers score in
  (In REC_WELL_OPTIMIZED recs <->
   fired (rules probs modifiers) = [] /\ (1.5 <? score) = true) /\
  (In REC_WELL_OPTIMIZED recs <-> recs = [REC_WELL_OPTIMIZED]) /\
  (List.length recs <= 8)%nat.
Proof.
  cbv zeta. rewrite generate_recommendations_expected. unfold expected.
  assert (Hno : ~ In REC_WELL_OPTIMIZED (fired (rules probs modifiers))).
  { intros Hin. apply fired_iff in Hin.
    apply (well_optimized_is_no_rule probs modifiers).
    apply in_map_iff. now exists (true, REC_WELL_OPTIMIZED). }
  assert (Hlen : (List.length (fired (rules probs modifiers)) <= 8)%nat).
  { unfold fired. rewrite length_map.
    etransitivity; [ apply filter_length_le | ]. reflexivity. }
  destruct (fired (rules probs modifiers)) as [ | r recs ].
  - destruct (1.5 <? score); (split; [ | split ]).
    + split; [ intros _; now split | intros _; now left ].
    + split; [ reflexivity | intros _; now left ].
    + simpl. lia.
    + split; [ intros [] | intros (_ & H); discriminate H ].
    + split; [ intros [] | intros H; discriminate H ].
    + simpl. lia.
  - split; [ | split ].
    + split; [ intros H; now destruct (Hno H) | intros (H & _); discriminate H ].
    + split; [ intros H; now destruct (Hno H) | ].
      intros H. rewrite H. now left.
    + exact Hlen.
Qed.

End RecommendationsMore.

(* ------------------------------------------------------------------ *)
(** * Further properties of the batch analyzer *)

Section BatchMore.
Import XAlgorithmScorer ContentAnalyzer BatchAnalyzer Summary Decay Report.
Local Open Scope string_scope.

Lemma nth_map_in (A B : Type) (f : A -> B) (l : list A) (k : nat)
    (d : B) (d' : A) :
  (k < List.length l)%nat -> nth k (map f l) d = f (nth k l d').
Proof.
  revert k. induction l as [ | x l IH ]; intros k Hk; simpl in *; [ lia | ].
  destruct k; [ reflexivity | apply IH; lia ].
Qed.

(** What [analyze_posts] returns: it never raises. *)
Lemma analyze_posts_returns (posts : list string) (is_same_author : bool) :
  let scores := map PostEntry.score (entries is_same_author posts) in
  exists msg,
    _batch_recommendation (entries is_same_author posts) is_same_author
    = Py.Ok msg /\
    analyze_posts posts is_same_author
    = Py.Ok (BatchReport.Build (len posts)
               (statistic arithmetic_mean scores)
               (statistic greatest scores)
               (statistic least scores)
               (entries is_same_author posts) msg).
Proof.
  cbv zeta. unfold analyze_posts. cbv zeta. rewrite results_loop. simpl app.
  fold (entries is_same_author posts).
  destruct (batch_recommendation_returns is_same_author
              (entries is_same_author posts)) as (msg & Hmsg).
  rewrite Hmsg. exists msg. split; [ reflexivity | ].
  destruct (map PostEntry.score (entries is_same_author posts)) as [ | s scores ].
  - reflexivity.
  - simpl truthy. cbv iota. rewrite truediv_by_length, sum_total.
    reflexivity.
Qed.

Lemma enumerate_from_length (A : Type) (xs : list A) (i : Z) :
  List.length (enumerate_from i xs) = List.length xs.
Proof. revert i. induction xs; intros i; simpl; [ | rewrite IHxs ]; reflexivity. Qed.

Lemma enumerate_from_nth (A : Type) (xs : list A) (i : Z) (k : nat) (d : A) :
  (k < List.length xs)%nat ->
  nth k (enumerate_from i xs) (0, d) = (i + Z.of_nat k, nth k xs d).
Proof.
  revert i k. induction xs as [ | x xs IH ]; intros i k Hk; simpl in *; [ lia | ].
  destruct k as [ | k ].
  - f_equal. lia.
  - rewrite IH by lia. f_equal. lia.
Qed.

Lemma entries_length (is_same_author : bool) (posts : list string) :
  List.length (entries is_same_author posts) = List.length posts.
Proof. unfold entries, enumerate. now rewrite length_map, enumerate_from_length. Qed.

Lemma entries_nth (is_same_author : bool) (posts : list string) (k : nat)
    (d : PostEntry.t) :
  (k < List.length posts)%nat ->
  nth k (entries is_same_author posts) d
  = analyze_post is_same_author (Z.of_nat k) (nth k posts "").
Proof.
  intros Hk. unfold entries, enumerate.
  rewrite (nth_map_in _ _ _ _ _ _ (0, "")) by now rewrite enumerate_from_length.
  rewrite enumerate_from_nth by exact Hk. reflexivity.
Qed.

(** X6: the report of a batch counts its posts and keeps one entry per
    post, in the posts' order: entry [k] (from 0) is numbered [k + 1] and
    previews post [k], which is shown whole when it has at most 50
    characters. *)
Theorem batch_entries_follow_posts (posts : list string) (is_same_author : bool) :
  exists report,
    analyze_posts posts is_same_author = Py.Ok report /\
    BatchReport.post_count report = Z.of_nat (List.length posts) /\
    List.length (BatchReport.results report) = List.length posts /\
    forall k d, (k < List.length posts)%nat ->
      let entry := nth k (BatchReport.results report) d in
      let post := nth k posts "" in
      PostEntry.post_number entry = Z.of_nat k + 1 /\
      PostEntry.text_preview entry
      = (if (50 <? Str.len post)%Z then Str.take 50 post ++ "..." else post).
Proof.
  destruct (analyze_posts_returns posts is_same_author) as (msg & _ & ->).
  eexists. split; [ reflexivity | ]. simpl.
  split; [ reflexivity | ]. split; [ apply entries_length | ].
  intros k d Hk. rewrite entries_nth by exact Hk.
  unfold analyze_post. destruct (analyze_text (nth k posts "")). simpl.
  split; reflexivity.
Qed.

End BatchMore.

Section BatchEntries.
Import SignalWeight XAlgorithmScorer ContentAnalyzer BatchAnalyzer Summary Decay Report.
Local Open Scope string_scope.

(** The modifiers [analyze_text] returns carry the three media flags and
    the reply flag read off the lower-cased text, and leave the other
    fields at their defaults: position 1, age 0, in network, no quote. *)
Lemma analyze_text_modifiers (text : string) :
  snd (analyze_text text)
  = Build_ContentModifiers
      (any_in VIDEO_MARKERS (Str.lower text)) false 1 0
      (any_in IMAGE_MARKERS (Str.lower text))
      (any_in LINK_MARKERS (Str.lower text))
      (Str.startswith (Str.lower text) "@") false.
Proof.
  unfold analyze_text. cbv zeta.
  destruct (any_in LINK_MARKERS (Str.lower text)),
    (any_in IMAGE_MARKERS (Str.lower text)),
    (any_in VIDEO_MARKERS (Str.lower text)),
    (Str.startswith (Str.lower text) "@"); reflexivity.
Qed.

(** X7: when the posts are not from one author, every entry carries the
    result the post gets on its own: the scores do not depend on where a
    post stands in the batch, and no diversity penalty is applied. *)
Theorem batch_of_distinct_authors (posts : list string) :
  exists report,
    analyze_posts posts false = Py.Ok report /\
    map PostEntry.score (BatchReport.results report)
    = map (fun post =>
             final_score (calculate_score (fst (analyze_text post))
                                          (snd (analyze_text post)))) posts /\
    Forall (fun entry => PostEntry.diversity_penalty entry = 1%float)
           (BatchReport.results report).
Proof.
  destruct (analyze_posts_returns posts false) as (msg & _ & ->).
  eexists. split; [ reflexivity | ]. simpl BatchReport.results.
  unfold entries, enumerate. generalize 0 as i.
  induction posts as [ | post posts IH ]; intros i; simpl.
  - split; constructor.
  - destruct (IH (i + 1)) as (Hscores & Hpenalty). split.
    + f_equal; [ | exact Hscores ].
      unfold analyze_post. destruct (analyze_text post). reflexivity.
    + constructor; [ | exact Hpenalty ].
      unfold analyze_post.
      pose proof (analyze_text_modifiers post) as Hm.
      destruct (analyze_text post) as [probs modifiers]. simpl in Hm.
      rewrite Hm, calculate_score_unfold. reflexivity.
Qed.

(** X8: when the posts are from one author, the diversity penalty of the
    entries is 1.0, 0.45, 0.2025 and then 0.1 for every further post. *)
Theorem batch_of_one_author_penalties (posts : list string) :
  exists report,
    analyze_posts posts true = Py.Ok report /\
    forall k d, (k < List.length posts)%nat ->
      PostEntry.diversity_penalty (nth k (BatchReport.results report) d)
      = match k with
        | 0%nat => 1
        | 1%nat => 0.45
        | 2%nat => 0.2025
        | _ => 0.1
        end%float.
Proof.
  destruct (analyze_posts_returns posts true) as (msg & _ & ->).
  eexists. split; [ reflexivity | ]. simpl BatchReport.results.
  intros k d Hk. rewrite entries_nth by exact Hk.
  unfold analyze_post. destruct (analyze_text (nth k posts "")) as [probs modifiers].
  simpl PostEntry.diversity_penalty.
  rewrite calculate_score_unfold. simpl diversity_multiplier.
  unfold Unrounded.diversity_multiplier. simpl post_position.
  rewrite diversity_values. unfold diversity_table.
  destruct k as [ | [ | [ | k ] ] ]; try reflexivity.
  destruct (Z.leb_spec (Z.of_nat (S (S (S k))) + 1) 1); [ lia | ].
  destruct (Z.eqb_spec (Z.of_nat (S (S (S k))) + 1) 2); [ lia | ].
  destruct (Z.eqb_spec (Z.of_nat (S (S (S k))) + 1) 3); [ lia | ].
  reflexivity.
Qed.

(** X9: [_batch_recommendation] never raises: its division is guarded.
    It answers an empty batch with the no-posts message, and more than
    three posts of one author with the spacing warning, whatever they
    score. *)
Theorem batch_recommendation_total (results : list PostEntry.t)
    (is_same_author : bool) :
  exists msg,
    _batch_recommendation results is_same_author = Py.Ok msg /\
    (results = [] -> msg = "No posts to analyze.") /\
    (is_same_author = true -> (3 < List.length results)%nat ->
     msg = "Warning: " ++ str_of_int (len results)
           ++ " posts from same author. Posts 4+ receive <20% of normal score. "
           ++ "Consider spacing posts throughout the day.").
Proof.
  unfold _batch_recommendation.
  destruct results as [ | r results ]; simpl truthy; simpl negb; cbv iota.
  - eexists. split; [ reflexivity | ]. split; [ reflexivity | ].
    simpl. lia.
  - destruct is_same_author; simpl andb.
    + destruct (Z.ltb_spec 3 (len (r :: results))) as [Hlt | Hge].
      * eexists. split; [ reflexivity | ]. split; [ discriminate | ].
        intros _ _. reflexivity.
      * rewrite truediv_by_length. simpl Py.bind.
        match goal with |- context [(?x <? 0.5)%float] =>
          destruct (x <? 0.5)%float; [ | destruct (x <? 1.0)%float ]
        end; (eexists; split; [ reflexivity | ]; split; [ discriminate | ];
              intros _ Hlen; unfold len in Hge; lia).
    + rewrite truediv_by_length. simpl Py.bind.
      match goal with |- context [(?x <? 0.5)%float] =>
        destruct (x <? 0.5)%float; [ | destruct (x <? 1.0)%float ]
      end; (eexists; split; [ reflexivity | ]; split; discriminate).
Qed.

Lemma batch_recommendation_sample :
  _batch_recommendation [] true = Py.Ok "No posts to analyze.".
Proof.
  destruct (batch_recommendation_total [] true) as (msg & Hmsg & Hempty & _).
  rewrite Hmsg. f_equal. now apply Hempty.
Defined.

End BatchEntries.

Section Preview.
Import BatchAnalyzer.
Local Open Scope string_scope.

Lemma len_nonneg (s : string) : 0 <= Str.len s.
Proof. induction s as [ | c s IH ]; simpl; [ | destruct (Str.is_continuation c) ]; lia. Qed.

Lemma len_append (s t : string) : Str.len (s ++ t) = Str.len s + Str.len t.
Proof. induction s as [ | c s IH ]; simpl; [ | rewrite IH ]; lia. Qed.

(** A slice holds the code points asked for, or all there are. *)
Lemma len_take (n : nat) (s : string) :
  Str.len (Str.take n s) = Z.min (Z.of_nat n) (Str.len s).
Proof.
  revert n. induction s as [ | c s IH ]; intros n; cbn [Str.take Str.len]; [ lia | ].
  pose proof (len_nonneg s) as Hs.
  destruct (Str.is_continuation c) eqn:Hc; cbn [Str.take Str.len].
  - rewrite Hc, IH. lia.
  - destruct n as [ | n ]; cbn [Str.take Str.len]; [ lia | ].
    rewrite Hc, IH. lia.
Qed.

(** X10: the preview of a post never has more than 53 characters (code
    points), and is the post itself when the post has at most 50. *)
Theorem text_preview_bounded (is_same_author : bool) (i : Z) (post : string) :
  let preview := PostEntry.text_preview (analyze_post is_same_author i post) in
  Str.len preview <= 53 /\
  (Str.len post <= 50 -> preview = post) /\
  (50 < Str.len post -> Str.len preview = 53).
Proof.
  cbv zeta. unfold analyze_post.
  destruct (ContentAnalyzer.analyze_text post) as [probs modifiers].
  simpl PostEntry.text_preview.
  destruct (Z.ltb_spec 50 (Str.len post)) as [Hlong | Hshort].
  - rewrite len_append, len_take. change (Str.len "...") with 3.
    repeat apply conj; lia.
  - repeat apply conj; [ lia | reflexivity | lia ].
Qed.

Lemma text_preview_sample :
  PostEntry.text_preview (analyze_post true 0 "short post") = "short post".
Proof.
  apply (text_preview_bounded true 0 "short post"). vm_compute. discriminate.
Defined.

End Preview.

(* ------------------------------------------------------------------ *)
(** * What the analyzer can return *)

Section FeatureSpace.
Import ContentAnalyzer XAlgorithmScorer Features.
Local Open Scope float_scope.

Lemma analyze_text_features (text : string) :
  fst (analyze_text text) = probabilities (of_text text).
Proof.
  unfold analyze_text, probabilities, raw_probabilities, of_text. cbv zeta.
  cbn [question call_to_action controversy image video positive_count
       negative_count word_count].
  destruct (any_in IMAGE_MARKERS (Str.lower text));
    destruct (any_in VIDEO_MARKERS (Str.lower text)); reflexivity.
Qed.

Lemma count_matches_bound (patterns : list string) (text : string) :
  (0 <= count_matches patterns text <= Z.of_nat (List.length patterns))%Z.
Proof.
  unfold count_matches.
  pose proof (filter_length_le (fun p => re_search p text) patterns). lia.
Qed.

Lemma probabilities_canonical (f : t) :
  probabilities (canonical f) = probabilities f.
Proof.
  unfold probabilities, raw_probabilities, canonical, length_class.
  cbn [question call_to_action controversy image video positive_count
       negative_count word_count].
  destruct (Z.ltb_spec 50 (word_count f)); [ reflexivity | ].
  destruct (Z.ltb_spec (word_count f) 10); reflexivity.
Qed.

Lemma in_bools (b : bool) : In b BOOLS.
Proof. destruct b; simpl; tauto. Qed.

Lemma in_counts (n : Z) : (0 <= n <= 5)%Z -> In n COUNTS.
Proof. intros H. simpl. lia. Qed.

Lemma in_lengths (w : Z) : In (length_class w) LENGTHS.
Proof.
  unfold length_class.
  destruct (50 <? w)%Z; [ | destruct (w <? 10)%Z ]; simpl; tauto.
Qed.

Lemma canonical_in_all (f : t) :
  (0 <= positive_count f <= 5)%Z -> (0 <= negative_count f <= 5)%Z ->
  In (canonical f) ALL.
Proof.
  intros Hp Hn. unfold ALL, canonical.
  repeat (apply in_flat_map; eexists; split; [ apply in_bools | ]).
  apply in_flat_map; eexists; split; [ apply (in_counts _ Hp) | ].
  apply in_flat_map; eexists; split; [ apply (in_counts _ Hn) | ].
  apply in_map. apply in_lengths.
Qed.

(** A check passed by every combination of features is passed by the
    analysis of every text. *)
Lemma probabilities_checked (check : EngagementProbabilities -> bool) :
  forallb (fun f => check (probabilities f)) ALL = true ->
  forall text, check (fst (analyze_text text)) = true.
Proof.
  intros Hall text. rewrite analyze_text_features, <- probabilities_canonical.
  apply (proj1 (forallb_forall _ _) Hall).
  apply canonical_in_all; apply count_matches_bound.
Qed.

End FeatureSpace.

Section AnalysisRanges.
Import ContentAnalyzer XAlgorithmScorer Features Ranges.
Local Open Scope float_scope.

Lemma all_features_in_range :
  forallb (fun f => all_in_range (probabilities f)) ALL = true.
Proof. vm_cast_no_check (eq_refl true). Qed.

Lemma in_attrs (a : Attr.t) : In a ATTRS.
Proof. destruct a; simpl; tauto. Qed.

Lemma all_features_untouched : forallb untouched ALL = true.
Proof. vm_cast_no_check (eq_refl true). Qed.

Lemma raw_probabilities_canonical (f : Features.t) :
  raw_probabilities (canonical f) = raw_probabilities f.
Proof.
  unfold raw_probabilities, canonical, length_class.
  cbn [question call_to_action controversy image video positive_count
       negative_count word_count].
  destruct (Z.ltb_spec 50 (word_count f)); [ reflexivity | ].
  destruct (Z.ltb_spec (word_count f) 10); reflexivity.
Qed.

(** X11: whatever the text, each probability [analyze_text] returns lies
    in the range of its field: favorite in [0.3, 0.5], reply in
    [0.15, 0.4], repost in [0.08, 0.18], quote in [0.04, 0.12], share in
    [0.05, 0.1], dwell_time in [0.15, 0.4], video_view in [0, 0.35],
    photo_expand in [0, 0.15], not_interested in [0, 0.2], block in
    [0, 0.05], mute in [0, 0.1]; profile_click is 0.12 and dm_share 0.02;
    follow_author, link_copy, content_click and report are 0.  And it is
    the value computed before the final clamping to [0, 1], which never
    has anything to cut. *)
Theorem analyze_text_ranges (text : string) (a : Attr.t) :
  (fst (RANGE a) <=? getattr (fst (analyze_text text)) a) = true /\
  (getattr (fst (analyze_text text)) a <=? snd (RANGE a)) = true /\
  getattr (fst (analyze_text text)) a
  = getattr (raw_probabilities (of_text text)) a.
Proof.
  pose proof (probabilities_checked all_in_range all_features_in_range text)
    as Hall.
  unfold all_in_range in Hall.
  pose proof (proj1 (forallb_forall _ _) Hall a (in_attrs a)) as Ha.
  unfold in_range, within in Ha. apply andb_prop in Ha.
  destruct Ha as (Hlo & Hhi).
  split; [ exact Hlo | ]. split; [ exact Hhi | ].
  rewrite analyze_text_features.
  rewrite <- probabilities_canonical, <- raw_probabilities_canonical.
  assert (Hun : untouched (canonical (of_text text)) = true).
  { apply (proj1 (forallb_forall _ _) all_features_untouched).
    apply canonical_in_all; apply count_matches_bound. }
  unfold untouched in Hun.
  apply Leibniz.eqb_spec.
  exact (proj1 (forallb_forall _ _) Hun a (in_attrs a)).
Qed.

(** The result depends on the video flag, the position, the network flag
    and the age among the modifiers, and on nothing else. *)
Lemma calculate_score_modifiers (probs : EngagementProbabilities)
    (m m' : ContentModifiers) :
  has_video m = has_video m' ->
  is_out_of_network m = is_out_of_network m' ->
  post_position m = post_position m' ->
  post_age_hours m = post_age_hours m' ->
  calculate_score probs m = calculate_score probs m'.
Proof.
  destruct m, m'. simpl. intros -> -> -> ->. reflexivity.
Qed.

Lemma all_features_moderate :
  forallb (fun f =>
             moderate_result
               (calculate_score (probabilities f)
                  (Build_ContentModifiers (video f) false 1 0
                     (image f) false false false))) ALL = true.
Proof. vm_cast_no_check (eq_refl true). Qed.

Lemma analyzed_result_checked (text : string) :
  moderate_result
    (calculate_score (fst (analyze_text text)) (snd (analyze_text text)))
  = true.
Proof.
  rewrite analyze_text_features, <- probabilities_canonical.
  rewrite analyze_text_modifiers.
  rewrite (calculate_score_modifiers _ _
             (Build_ContentModifiers (video (canonical (of_text text))) false 1 0
                (image (canonical (of_text text))) false false false))
    by reflexivity.
  apply (proj1 (forallb_forall _ _) all_features_moderate).
  apply canonical_in_all; apply count_matches_bound.
Qed.

Lemma cmd_analyze_defaults (text : string) :
  Cli.cmd_analyze text 1 0 false
  = calculate_score (fst (analyze_text text)) (snd (analyze_text text)).
Proof.
  unfold Cli.cmd_analyze. pose proof (analyze_text_modifiers text) as Hm.
  destruct (analyze_text text) as [probs modifiers]. simpl in Hm. subst.
  reflexivity.
Qed.

(** X12: whatever the text, the analyze command with its default options
    (first post, fresh, in network), which scores the analysis as it is
    returned, gives a final score between 0.382 and 1.8021 and an
    interpretation that is neither LOW REACH nor VIRAL POTENTIAL. *)
Theorem analyzed_text_reach (text : string) :
  let r := Cli.cmd_analyze text 1 0 false in
  r = calculate_score (fst (analyze_text text)) (snd (analyze_text text)) /\
  (0.382 <=? final_score r) = true /\
  (final_score r <=? 1.8021) = true /\
  interpretation r <> LOW_REACH /\
  interpretation r <> VIRAL_POTENTIAL.
Proof.
  cbv zeta. rewrite cmd_analyze_defaults.
  pose proof (analyzed_result_checked text) as H.
  unfold moderate_result, within in H.
  apply andb_prop in H. destruct H as (H & Hviral).
  apply andb_prop in H. destruct H as (H & Hlow).
  apply andb_prop in H. destruct H as (Hlo & Hhi).
  split; [ reflexivity | ]. split; [ exact Hlo | ]. split; [ exact Hhi | ].
  split; apply String.eqb_neq; now apply negb_true_iff.
Qed.

End AnalysisRanges.

(* ------------------------------------------------------------------ *)
(** * Best and worst score of a batch *)

Section Extremes.
Import ContentAnalyzer XAlgorithmScorer BatchAnalyzer Summary Features Ranges
  Report Decay.
Local Open Scope float_scope.

Lemma leb_refl (x : float) : ranked x -> (x <=? x) = true.
Proof.
  intros (a & Ha). apply leb_rank. exists a, a. repeat split; trivial.
  destruct a as [[? ?] ?]. unfold sf_le3. lia.
Qed.

Lemma within_ranked (lo hi x : float) : within lo hi x = true -> ranked x.
Proof.
  unfold within. intros H. apply andb_true_iff in H. destruct H as (H & _).
  apply leb_rank in H. destruct H as (a & b & _ & Hb & _). now exists b.
Qed.

(** [max] and [min] of two values that are not NaN. *)
Lemma max_ranked (a b : float) :
  ranked a -> ranked b ->
  (Py.max a b = a \/ Py.max a b = b) /\
  (a <=? Py.max a b) = true /\ (b <=? Py.max a b) = true.
Proof.
  intros Ha Hb. unfold Py.max. destruct (a <? b) eqn:Hlt.
  - repeat split; [ now right | now apply ltb_leb | now apply leb_refl ].
  - destruct Ha as (ra & Hra), Hb as (rb & Hrb).
    destruct (ltb_or_leb a b ra rb Hra Hrb) as [H | H]; [ congruence | ].
    repeat split; [ now left | apply leb_refl; now exists ra | exact H ].
Qed.

Lemma min_ranked (a b : float) :
  ranked a -> ranked b ->
  (Py.min a b = a \/ Py.min a b = b) /\
  (Py.min a b <=? a) = true /\ (Py.min a b <=? b) = true.
Proof.
  intros Ha Hb. unfold Py.min. destruct (b <? a) eqn:Hlt.
  - repeat split; [ now right | now apply ltb_leb | now apply leb_refl ].
  - destruct Ha as (ra & Hra), Hb as (rb & Hrb).
    destruct (ltb_or_leb b a rb ra Hrb Hra) as [H | H]; [ congruence | ].
    repeat split; [ now left | apply leb_refl; now exists ra | exact H ].
Qed.

(** The running maximum is an item seen so far and bounds them all. *)
Lemma fold_max_ranked (rest : list float) (x : float) :
  ranked x -> Forall ranked rest ->
  let m := fold_left Py.max rest x in
  ranked m /\ In m (x :: rest) /\
  Forall (fun y => (y <=? m) = true) (x :: rest).
Proof.
  revert x. induction rest as [ | y rest IH ]; intros x Hx Hrest; cbv zeta.
  - simpl. repeat split; [ exact Hx | now left | ].
    constructor; [ now apply leb_refl | constructor ].
  - inversion Hrest as [ | ? ? Hy Hrest' ]; subst. simpl fold_left.
    destruct (max_ranked x y Hx Hy) as (Hor & Hxm & Hym).
    assert (Hm : ranked (Py.max x y)) by (destruct Hor as [-> | ->]; assumption).
    destruct (IH (Py.max x y) Hm Hrest') as (Hr & Hin & Hall).
    inversion Hall as [ | ? ? Hhead Htail ]; subst.
    repeat split; [ exact Hr | | ].
    + destruct Hin as [Hin | Hin]; [ | now right; right ].
      rewrite <- Hin. destruct Hor as [-> | ->]; [ now left | now right; left ].
    + constructor; [ | constructor ]; try assumption.
      * now apply (leb_trans x (Py.max x y)).
      * now apply (leb_trans y (Py.max x y)).
Qed.

Lemma fold_min_ranked (rest : list float) (x : float) :
  ranked x -> Forall ranked rest ->
  let m := fold_left Py.min rest x in
  ranked m /\ In m (x :: rest) /\
  Forall (fun y => (m <=? y) = true) (x :: rest).
Proof.
  revert x. induction rest as [ | y rest IH ]; intros x Hx Hrest; cbv zeta.
  - simpl. repeat split; [ exact Hx | now left | ].
    constructor; [ now apply leb_refl | constructor ].
  - inversion Hrest as [ | ? ? Hy Hrest' ]; subst. simpl fold_left.
    destruct (min_ranked x y Hx Hy) as (Hor & Hxm & Hym).
    assert (Hm : ranked (Py.min x y)) by (destruct Hor as [-> | ->]; assumption).
    destruct (IH (Py.min x y) Hm Hrest') as (Hr & Hin & Hall).
    inversion Hall as [ | ? ? Hhead Htail ]; subst.
    repeat split; [ exact Hr | | ].
    + destruct Hin as [Hin | Hin]; [ | now right; right ].
      rewrite <- Hin. destruct Hor as [-> | ->]; [ now left | now right; left ].
    + constructor; [ | constructor ]; try assumption.
      * now apply (leb_trans _ (Py.min x y)).
      * now apply (leb_trans _ (Py.min x y)).
Qed.

(** Every combination of features passes the checks on its scores. *)
Lemma all_features_settled : forallb settled_feature ALL = true.
Proof. vm_cast_no_check (eq_refl true). Qed.

Lemma settled_feature_scores (f : Features.t) :
  settled_feature f = true ->
  (settled_score (score_at f 1) = true /\ settled_score (score_at f 2) = true /\
   settled_score (score_at f 3) = true /\ settled_score (score_at f 4) = true) /\
  (score_at f 2 <=? score_at f 1) = true /\
  (score_at f 3 <=? score_at f 2) = true /\
  (score_at f 4 <=? score_at f 3) = true.
Proof.
  unfold settled_feature. cbv zeta. intros H.
  apply andb_prop in H. destruct H as (H & H43).
  apply andb_prop in H. destruct H as (H & H32).
  apply andb_prop in H. destruct H as (H & H21).
  apply andb_prop in H. destruct H as (H & H4).
  apply andb_prop in H. destruct H as (H & H3).
  apply andb_prop in H. destruct H as (H1 & H2).
  split; [ split; [ exact H1 | split; [ exact H2 | split; [ exact H3 | exact H4 ] ] ] | ].
  split; [ exact H21 | split; [ exact H32 | exact H43 ] ].
Qed.

(** Every score there is passes the checks. *)
Lemma all_scores_settled : forallb settled_score ALL_SCORES = true.
Proof.
  apply forallb_forall. intros s Hs. unfold ALL_SCORES in Hs.
  apply in_flat_map in Hs. destruct Hs as (f & Hf & Hs).
  pose proof (proj1 (forallb_forall _ _) all_features_settled f Hf) as Hcheck.
  apply settled_feature_scores in Hcheck.
  destruct Hcheck as ((H1 & H2 & H3 & H4) & _).
  unfold POSITIONS in Hs. cbn [map In] in Hs.
  destruct Hs as [<- | [<- | [<- | [<- | []]]]]; assumption.
Qed.

Lemma diversity_position_class (p : Z) :
  _calculate_diversity_multiplier (position_class p)
  = _calculate_diversity_multiplier p.
Proof.
  rewrite !diversity_values. unfold diversity_table, position_class.
  destruct (Z.leb_spec p 1); [ reflexivity | ].
  destruct (Z.eqb_spec p 2); [ reflexivity | ].
  destruct (Z.eqb_spec p 3); reflexivity.
Qed.

Lemma in_positions (p : Z) : In (position_class p) POSITIONS.
Proof.
  unfold position_class.
  destruct (p <=? 1)%Z; [ | destruct (p =? 2)%Z; [ | destruct (p =? 3)%Z ] ];
    simpl; tauto.
Qed.

(** The final score of an analysed text, fresh and in network, is the
    score of its features at the class of its position. *)
Lemma score_of_text (text : string) (m : ContentModifiers) :
  has_video m = video (of_text text) ->
  is_out_of_network m = false ->
  post_age_hours m = 0 ->
  final_score (calculate_score (fst (analyze_text text)) m)
  = score_at (canonical (of_text text)) (position_class (post_position m)).
Proof.
  intros Hv Ho Ha. unfold score_at.
  rewrite probabilities_canonical, <- analyze_text_features.
  rewrite !calculate_score_unfold. cbn [final_score]. f_equal.
  unfold Unrounded.final_score, Unrounded.positive_score,
    Unrounded.diversity_multiplier, Unrounded.oon_multiplier,
    Unrounded.age_multiplier.
  cbn [has_video is_out_of_network post_position post_age_hours].
  rewrite Hv, Ho, Ha, diversity_position_class. reflexivity.
Qed.

(** The score of a post of a batch is one of the scores there are. *)
Lemma individual_final_score_in_all (is_same_author : bool) (k : nat)
    (post : string) :
  In (individual_final_score is_same_author k post) ALL_SCORES.
Proof.
  assert (E : exists p, individual_final_score is_same_author k post
              = score_at (canonical (of_text post)) (position_class p)).
  { unfold individual_final_score.
    pose proof (score_of_text post) as Hscore.
    pose proof (analyze_text_modifiers post) as Hm.
    destruct (analyze_text post) as [probs modifiers]. simpl in Hscore, Hm.
    eexists. rewrite Hscore; [ reflexivity | | | ];
      rewrite Hm; destruct is_same_author; reflexivity. }
  destruct E as (p & ->). unfold ALL_SCORES. apply in_flat_map.
  exists (canonical (of_text post)). split.
  - apply canonical_in_all; apply count_matches_bound.
  - apply in_map. apply in_positions.
Qed.

Lemma batch_scores_settled (posts : list string) (is_same_author : bool) :
  Forall (fun s => settled_score s = true)
         (map PostEntry.score (entries is_same_author posts)).
Proof.
  unfold entries. rewrite entry_scores. unfold individual_final_scores.
  apply Forall_forall. intros s Hs. apply in_map_iff in Hs.
  destruct Hs as (k & <- & _).
  apply (proj1 (forallb_forall _ _) all_scores_settled).
  apply individual_final_score_in_all.
Qed.

Lemma settled_round (s : float) : settled_score s = true -> Py.round s 4 = s.
Proof.
  unfold settled_score. intros H. apply andb_true_iff in H.
  destruct H as (_ & H). now apply Leibniz.eqb_spec.
Qed.

Lemma settled_ranked (s : float) : settled_score s = true -> ranked s.
Proof.
  unfold settled_score. intros H. apply andb_true_iff in H.
  destruct H as (H & _). exact (within_ranked _ _ _ H).
Qed.

(** X13: for a batch that is not empty, the best and the worst score
    reported are scores of entries of the batch, and every entry's score
    lies between them; all of them lie between 0.0382 and 1.8021. *)
Theorem batch_best_and_worst (posts : list string) (is_same_author : bool) :
  posts <> [] ->
  exists report best worst,
    analyze_posts posts is_same_author = Py.Ok report /\
    BatchReport.best_score report = Py.Float best /\
    BatchReport.worst_score report = Py.Float worst /\
    let scores := map PostEntry.score (BatchReport.results report) in
    In best scores /\ In worst scores /\
    Forall (fun s => (worst <=? s) = true /\ (s <=? best) = true /\
                     (0.0382 <=? s) = true /\ (s <=? 1.8021) = true) scores.
Proof.
  intros Hposts.
  destruct (analyze_posts_returns posts is_same_author) as (msg & _ & ->).
  pose proof (batch_scores_settled posts is_same_author) as Hsettled.
  assert (Hlen : List.length (map PostEntry.score (entries is_same_author posts))
                 = List.length posts)
    by now rewrite length_map, entries_length.
  destruct (map PostEntry.score (entries is_same_author posts))
    as [ | s scores ] eqn:Hscores.
  { destruct posts; [ congruence | discriminate Hlen ]. }
  assert (Hranked : Forall ranked (s :: scores)).
  { eapply Forall_impl; [ | exact Hsettled ]. apply settled_ranked. }
  inversion Hranked as [ | ? ? Hs Hrest ]; subst.
  destruct (fold_max_ranked scores s Hs Hrest) as (_ & Hbest & Hle).
  destruct (fold_min_ranked scores s Hs Hrest) as (_ & Hworst & Hge).
  exists (BatchReport.Build (len posts)
            (statistic arithmetic_mean (s :: scores))
            (statistic greatest (s :: scores))
            (statistic least (s :: scores))
            (entries is_same_author posts) msg),
    (fold_left Py.max scores s), (fold_left Py.min scores s).
  split; [ reflexivity | ]. simpl BatchReport.best_score.
  simpl BatchReport.worst_score. simpl BatchReport.results.
  assert (Hall : forall x, In x (s :: scores) -> settled_score x = true)
    by (apply Forall_forall; exact Hsettled).
  split; [ unfold statistic, greatest; now rewrite settled_round by auto | ].
  split; [ unfold statistic, least; now rewrite settled_round by auto | ].
  cbv zeta. rewrite Hscores. split; [ exact Hbest | ]. split; [ exact Hworst | ].
  apply Forall_forall. intros x Hx.
  pose proof (proj1 (Forall_forall _ _) Hle x Hx) as H1.
  pose proof (proj1 (Forall_forall _ _) Hge x Hx) as H2.
  pose proof (Hall x Hx) as H3. unfold settled_score, within in H3.
  apply andb_prop in H3. destruct H3 as (H3 & _).
  apply andb_prop in H3. destruct H3 as (Hlo & Hhi).
  split; [ exact H2 | split; [ exact H1 | split; [ exact Hlo | exact Hhi ] ] ].
Qed.

Lemma batch_best_and_worst_sample :
  exists report best worst,
    analyze_posts ["first post"; "second post"]%string true = Py.Ok report /\
    BatchReport.best_score report = Py.Float best /\
    BatchReport.worst_score report = Py.Float worst /\
    let scores := map PostEntry.score (BatchReport.results report) in
    In best scores /\ In worst scores /\
    Forall (fun s => (worst <=? s) = true /\ (s <=? best) = true /\
                     (0.0382 <=? s) = true /\ (s <=? 1.8021) = true) scores.
Proof.
  apply (batch_best_and_worst ["first post"; "second post"]%string true).
  discriminate.
Defined.

End Extremes.

(* ------------------------------------------------------------------ *)
(** * Case and media in the analysis *)

Section CaseAndMedia.
Import ContentAnalyzer XAlgorithmScorer Features Media.
Local Open Scope float_scope.

Lemma is_space_lower_char (c : ascii) :
  Str.is_space (Str.lower_char c) = Str.is_space c.
Proof. destruct c as [[] [] [] [] [] [] [] []]; reflexivity. Qed.

Lemma count_words_lower (s : string) (in_word : bool) :
  Str.count_words in_word (Str.lower s) = Str.count_words in_word s.
Proof.
  revert in_word. induction s as [ | c s IH ]; intros in_word; simpl.
  - reflexivity.
  - rewrite is_space_lower_char, !IH. reflexivity.
Qed.

(** X14: the analysis does not look at the case of letters: two ASCII
    texts with the same lower-case form get the same probabilities and
    modifiers. *)
Theorem analyze_text_ignores_case (text1 text2 : string) :
  Str.is_ascii text1 = true -> Str.is_ascii text2 = true ->
  Str.lower text1 = Str.lower text2 ->
  analyze_text text1 = analyze_text text2.
Proof.
  intros _ _ Hlower.
  assert (Hwords : Str.word_count text1 = Str.word_count text2).
  { unfold Str.word_count.
    rewrite <- (count_words_lower text1), <- (count_words_lower text2).
    now rewrite Hlower. }
  unfold analyze_text. cbv zeta. rewrite Hlower, Hwords. reflexivity.
Qed.

Lemma analyze_text_ignores_case_sample :
  analyze_text "HOT Take: I LOVE this Video?"
  = analyze_text "hot take: i love this video?".
Proof. apply analyze_text_ignores_case; reflexivity. Defined.

Lemma all_features_consistent : forallb consistent ALL = true.
Proof. vm_cast_no_check (eq_refl true). Qed.

Lemma consistent_media (f : Features.t) :
  consistent f = true ->
  video_view (probabilities f) = (if video f then 0.35 else 0) /\
  photo_expand (probabilities f) = (if image f then 0.15 else 0).
Proof.
  intros H. apply andb_true_iff in H. destruct H as (Hv & Hi).
  split; now apply Leibniz.eqb_spec.
Qed.

Lemma canonical_media (f : Features.t) :
  video (canonical f) = video f /\ image (canonical f) = image f.
Proof. split; reflexivity. Qed.

Lemma text_media (text : string) :
  video_view (probabilities (of_text text))
  = (if video (of_text text) then 0.35 else 0) /\
  photo_expand (probabilities (of_text text))
  = (if image (of_text text) then 0.15 else 0).
Proof.
  destruct (canonical_media (of_text text)) as (Ev & Ei).
  rewrite <- Ev, <- Ei, <- probabilities_canonical.
  apply consistent_media.
  apply (proj1 (forallb_forall _ _) all_features_consistent).
  apply canonical_in_all; apply count_matches_bound.
Qed.

Lemma text_flags (text : string) :
  has_video (snd (analyze_text text)) = video (of_text text) /\
  has_image (snd (analyze_text text)) = image (of_text text).
Proof. rewrite analyze_text_modifiers. split; reflexivity. Qed.

(** X15: in what [analyze_text] returns, [video_view] is 0.35 when
    [has_video] is set and 0 otherwise, and [photo_expand] is 0.15 when
    [has_image] is set and 0 otherwise; so scoring the analysis applies
    the video bonus exactly when the text has a video marker. *)
Theorem analyzed_media_consistent (text : string) :
  let probs := fst (analyze_text text) in
  let modifiers := snd (analyze_text text) in
  video_view probs = (if has_video modifiers then 0.35 else 0) /\
  photo_expand probs = (if has_image modifiers then 0.15 else 0) /\
  video_bonus_applied (calculate_score probs modifiers)
  = any_in VIDEO_MARKERS (Str.lower text).
Proof.
  cbv zeta.
  destruct (text_media text) as (Hv & Hi).
  destruct (text_flags text) as (Fv & Fi).
  rewrite calculate_score_unfold. cbn [video_bonus_applied].
  rewrite Fv, Fi, analyze_text_features, Hv, Hi.
  split; [ reflexivity | ]. split; [ reflexivity | ].
  change (any_in VIDEO_MARKERS (Str.lower text)) with (video (of_text text)).
  destruct (video (of_text text)); reflexivity.
Qed.

End CaseAndMedia.

(* ------------------------------------------------------------------ *)
(** * The command line handlers *)

Section DiversityTable.
Import SignalWeight XAlgorithmScorer Decay Cli.
Local Open Scope float_scope.

Lemma in_range_from_1 (n i : Z) :
  In i (range_from_1 n) <-> (1 <= i <= n)%Z.
Proof.
  unfold range_from_1. rewrite in_map_iff. split.
  - intros (k & <- & Hk). apply in_seq in Hk. lia.
  - intros Hi. exists (Z.to_nat (i - 1)). split; [ lia | ].
    apply in_seq. lia.
Qed.

(** From the first row on, the table uses the scorer's multiplier. *)
Lemma row_multiplier (i : Z) :
  (1 <= i)%Z ->
  Py.max DIVERSITY_FLOOR (Py.pow DIVERSITY_BASE (i - 1)) = diversity_table i.
Proof.
  intros Hi. destruct (Z.eq_dec i 1) as [-> | Hne]; [ reflexivity | ].
  rewrite <- diversity_values. unfold _calculate_diversity_multiplier.
  destruct (Z.leb_spec i 1); [ lia | reflexivity ].
Qed.

(** The numbers of the rows, down the table. *)
Lemma range_from_1_nth (n : Z) (k : nat) :
  (k < Z.to_nat n)%nat -> nth k (range_from_1 n) 0%Z = (Z.of_nat k + 1)%Z.
Proof.
  intros Hk. unfold range_from_1.
  rewrite (nth_map_in _ _ _ _ _ _ 0%nat) by now rewrite length_seq.
  now rewrite seq_nth by exact Hk.
Qed.

(** X16: the table of the diversity command has one row per post from 1
    to [--posts] (none when that is below 1); the row at place [k] from
    the top, counting from 0, is the row of post [k + 1]: it shows that
    number, the multiplier the scorer applies at that position and its
    percentage, and its bar has 20 cells. *)
Theorem diversity_table_matches_scorer (posts : Z) (k : nat) :
  (posts - 1 < Py.FLOAT_LIMIT)%Z -> (k < Z.to_nat posts)%nat ->
  List.length (cmd_diversity posts) = Z.to_nat posts /\
  exists multiplier bar,
    _calculate_diversity_multiplier_raising (Z.of_nat k + 1)
    = Py.Ok multiplier /\
    nth k (cmd_diversity posts) None
    = Some ((Z.of_nat k + 1)%Z, multiplier, multiplier * 100, bar) /\
    Str.len bar = 20%Z.
Proof.
  intros Hposts Hk.
  assert (Hlen : List.length (range_from_1 posts) = Z.to_nat posts)
    by (unfold range_from_1; now rewrite length_map, length_seq).
  split; [ unfold cmd_diversity; now rewrite length_map | ].
  exists (_calculate_diversity_multiplier (Z.of_nat k + 1)).
  rewrite diversity_multiplier_returns by lia.
  unfold cmd_diversity.
  rewrite (nth_map_in _ _ _ _ _ _ 0%Z) by (rewrite Hlen; exact Hk).
  rewrite range_from_1_nth by exact Hk.
  unfold diversity_row. cbv zeta.
  rewrite row_multiplier by lia. rewrite diversity_values.
  unfold diversity_table.
  destruct (Z.of_nat k + 1 <=? 1)%Z;
    [ | destruct (Z.of_nat k + 1 =? 2)%Z;
        [ | destruct (Z.of_nat k + 1 =? 3)%Z ] ];
    eexists; (split; [ reflexivity | ]); split; reflexivity.
Qed.

(** The fourth row of a table of five. *)
Lemma diversity_table_sample :
  List.length (cmd_diversity 5) = 5%nat /\
  exists multiplier bar,
    _calculate_diversity_multiplier_raising 4 = Py.Ok multiplier /\
    nth 3 (cmd_diversity 5) None
    = Some (4%Z, multiplier, multiplier * 100, bar) /\
    Str.len bar = 20%Z.
Proof.
  apply (diversity_table_matches_scorer 5 3);
    [ vm_compute; reflexivity | vm_compute; lia ].
Defined.

End DiversityTable.

Section ReadPosts.
Import Cli.
Local Open Scope string_scope.

Lemma rstrip_idempotent (s : string) : rstrip (rstrip s) = rstrip s.
Proof.
  induction s as [ | c s IH ]; simpl; [ reflexivity | ].
  destruct (rstrip s) as [ | c' kept ] eqn:Hkept.
  - destruct (Str.is_space c) eqn:Hc; simpl; [ reflexivity | ].
    now rewrite Hc.
  - simpl in *. now rewrite IH.
Qed.

Lemma lstrip_starts_clean (s : string) : starts_clean (lstrip s).
Proof.
  induction s as [ | c s IH ]; simpl; [ exact I | ].
  destruct (Str.is_space c) eqn:Hc; [ exact IH | exact Hc ].
Qed.

Lemma lstrip_clean (s : string) : starts_clean s -> lstrip s = s.
Proof. destruct s as [ | c s ]; simpl; [ reflexivity | now intros -> ]. Qed.

Lemma rstrip_starts_clean (s : string) :
  starts_clean s -> starts_clean (rstrip s).
Proof.
  destruct s as [ | c s ]; simpl; [ trivial | ]. intros Hc.
  destruct (rstrip s); [ rewrite Hc | ]; exact Hc.
Qed.

Lemma strip_starts_clean (s : string) : starts_clean (strip s).
Proof. apply rstrip_starts_clean, lstrip_starts_clean. Qed.

Lemma strip_idempotent (s : string) : strip (strip s) = strip s.
Proof.
  unfold strip at 1. rewrite (lstrip_clean _ (strip_starts_clean s)).
  unfold strip. apply rstrip_idempotent.
Qed.

Lemma count_words_nonneg (s : string) (in_word : bool) :
  0 <= Str.count_words in_word s.
Proof.
  revert in_word. induction s as [ | c s IH ]; intros in_word;
    cbn [Str.count_words]; [ lia | ].
  destruct (Str.is_space c); [ apply IH | ].
  specialize (IH true). destruct in_word; lia.
Qed.

Lemma clean_has_word (s : string) :
  starts_clean s -> s <> "" -> 1 <= Str.word_count s.
Proof.
  destruct s as [ | c s ]; [ congruence | ]. intros Hc _.
  unfold Str.word_count. cbn [Str.count_words starts_clean] in *. rewrite Hc.
  pose proof (count_words_nonneg s true). lia.
Qed.

(** X17: the posts the batch command reads from a file of ASCII text
    are the lines that are not blank, in their order, without the blanks
    around them: no post is empty, stripping a post again changes
    nothing, every post has at least one word, and there are no more
    posts than lines. *)
Theorem read_posts_clean (lines : list string) :
  Forall (fun line => Str.is_ascii line = true) lines ->
  Forall (fun post => post <> "" /\ strip post = post /\
                      1 <= Str.word_count post)
         (read_posts lines) /\
  (List.length (read_posts lines) <= List.length lines)%nat /\
  read_posts (read_posts lines) = read_posts lines.
Proof.
  intros _.
  assert (Hall : Forall (fun post => post <> "" /\ strip post = post /\
                                     1 <= Str.word_count post)
                        (read_posts lines)).
  { apply Forall_forall. intros post Hpost. unfold read_posts in Hpost.
    apply in_map_iff in Hpost. destruct Hpost as (line & <- & Hline).
    apply filter_In in Hline. destruct Hline as (_ & Hne).
    assert (Hnonempty : strip line <> "")
      by (destruct (strip line); [ discriminate Hne | discriminate ]).
    repeat split.
    - exact Hnonempty.
    - apply strip_idempotent.
    - apply clean_has_word; [ apply strip_starts_clean | exact Hnonempty ]. }
  split; [ exact Hall | ]. split.
  - unfold read_posts. rewrite length_map. apply filter_length_le.
  - revert Hall. generalize (read_posts lines) as posts.
    induction posts as [ | post posts IH ]; intros Hall; [ reflexivity | ].
    inversion Hall as [ | ? ? (Hne & Hstrip & _) Hrest ]; subst.
    unfold read_posts in *. simpl. rewrite Hstrip.
    destruct post; [ congruence | ]. simpl. rewrite Hstrip.
    f_equal. now apply IH.
Qed.

(** Four lines, two of them blank. *)
Lemma read_posts_sample :
  read_posts ["  hello world  "; "   "; ""; "second post"]
  = ["hello world"; "second post"] /\
  Forall (fun post => post <> "" /\ strip post = post /\
                      1 <= Str.word_count post)
         (read_posts ["  hello world  "; "   "; ""; "second post"]) /\
  (List.length (read_posts ["  hello world  "; "   "; ""; "second post"])
   <= 4)%nat /\
  read_posts (read_posts ["  hello world  "; "   "; ""; "second post"])
  = read_posts ["  hello world  "; "   "; ""; "second post"].
Proof.
  split; [ reflexivity | ].
  apply (read_posts_clean ["  hello world  "; "   "; ""; "second post"]).
  repeat constructor.
Defined.

End ReadPosts.

Section LaterPosts.
Import ContentAnalyzer XAlgorithmScorer Features Ranges Cli.
Local Open Scope float_scope.

(** The scores of one combination of features, by class of position. *)
Lemma score_at_decreasing (f : Features.t) (p q : Z) :
  In f ALL -> (p <= q)%Z ->
  (score_at f (position_class q) <=? score_at f (position_class p)) = true.
Proof.
  intros Hf Hpq.
  pose proof (proj1 (forallb_forall _ _) all_features_settled f Hf) as Hcheck.
  apply settled_feature_scores in Hcheck.
  destruct Hcheck as ((H1 & H2 & H3 & H4) & H21 & H32 & H43).
  pose proof (leb_refl _ (settled_ranked _ H1)) as R1.
  pose proof (leb_refl _ (settled_ranked _ H2)) as R2.
  pose proof (leb_refl _ (settled_ranked _ H3)) as R3.
  pose proof (leb_refl _ (settled_ranked _ H4)) as R4.
  pose proof (leb_trans _ _ _ H32 H21) as H31.
  pose proof (leb_trans _ _ _ H43 H32) as H42.
  pose proof (leb_trans _ _ _ H43 H31) as H41.
  unfold position_class.
  destruct (Z.leb_spec p 1), (Z.eqb_spec p 2), (Z.eqb_spec p 3),
    (Z.leb_spec q 1), (Z.eqb_spec q 2), (Z.eqb_spec q 3);
    try lia; assumption.
Qed.

Lemma cmd_analyze_score (text : string) (position : Z) :
  final_score (cmd_analyze text position 0 false)
  = score_at (canonical (of_text text)) (position_class position).
Proof.
  unfold cmd_analyze.
  pose proof (score_of_text text) as Hscore.
  pose proof (analyze_text_modifiers text) as Hm.
  destruct (analyze_text text) as [probs modifiers]. simpl in Hscore, Hm.
  rewrite Hscore; [ reflexivity | | | ]; rewrite Hm; reflexivity.
Qed.

(** The analyze command returns for a position the power accepts. *)
Lemma cmd_analyze_returns (text : string) (position : Z) (age : float)
    (oon : bool) :
  (position - 1 < Py.FLOAT_LIMIT)%Z ->
  cmd_analyze_raising text position age oon
  = Py.Ok (cmd_analyze text position age oon).
Proof.
  intros Hposition. unfold cmd_analyze_raising, cmd_analyze.
  destruct (analyze_text text) as [probs modifiers].
  unfold calculate_score_raising.
  cbn [post_position set_is_out_of_network set_post_age_hours
       set_post_position].
  rewrite diversity_multiplier_returns by exact Hposition. reflexivity.
Qed.

(** X18: for a fresh, in-network post, the analyze command never gives a
    later position of the day a higher final score than an earlier one,
    whatever the text, for the positions on which it returns (those whose
    predecessor fits a double). *)
Theorem later_post_never_scores_higher (text : string) (p q : Z) :
  (p <= q)%Z -> (q - 1 < Py.FLOAT_LIMIT)%Z ->
  exists earlier later,
    cmd_analyze_raising text p 0 false = Py.Ok earlier /\
    cmd_analyze_raising text q 0 false = Py.Ok later /\
    (final_score later <=? final_score earlier) = true.
Proof.
  intros Hpq Hq.
  exists (cmd_analyze text p 0 false), (cmd_analyze text q 0 false).
  split; [ apply cmd_analyze_returns; lia | ].
  split; [ apply cmd_analyze_returns; exact Hq | ].
  rewrite !cmd_analyze_score.
  apply score_at_decreasing; [ | exact Hpq ].
  apply canonical_in_all; apply count_matches_bound.
Qed.

Lemma later_post_sample :
  exists earlier later,
    cmd_analyze_raising "what do you think?" 2 0 false = Py.Ok earlier /\
    cmd_analyze_raising "what do you think?" 3 0 false = Py.Ok later /\
    (final_score later <=? final_score earlier) = true.
Proof.
  apply later_post_never_scores_higher; [ lia | vm_compute; reflexivity ].
Defined.

End LaterPosts.

(* ------------------------------------------------------------------ *)
(** * Patterns that do not matter, and batches once more *)

Section Patterns.
Import ContentAnalyzer.
Local Open Scope string_scope.

Lemma prefix_append (p q s : string) :
  String.prefix (p ++ q) s = true ->
  exists rest, s = p ++ rest /\ String.prefix q rest = true.
Proof.
  revert s. induction p as [ | c p IH ]; intros s H;
    cbn [String.prefix String.append] in *.
  - now exists s.
  - destruct s as [ | d s ]; cbn [String.prefix] in H; [ discriminate | ].
    destruct (Ascii.ascii_dec c d) as [-> | ]; [ | discriminate ].
    destruct (IH s H) as (rest & -> & Hq). now exists rest.
Qed.

Lemma contains_skip (p q s : string) :
  Str.contains q s = true -> Str.contains q (p ++ s) = true.
Proof.
  intros H. induction p as [ | c p IH ]; cbn [String.append Str.contains];
    [ exact H | ].
  rewrite IH. apply orb_true_r.
Qed.

(** A text that contains a pattern contains the end of the pattern. *)
Lemma contains_suffix (p q s : string) :
  Str.contains (p ++ q) s = true -> Str.contains q s = true.
Proof.
  induction s as [ | d s IH ]; intros H.
  - cbn [Str.contains] in *. rewrite orb_false_r in *.
    destruct p; cbn [String.append String.prefix] in H;
      [ exact H | discriminate H ].
  - cbn [Str.contains] in H. apply orb_true_iff in H. destruct H as [H | H].
    + destruct (prefix_append p q (String d s) H) as (rest & Hs & Hq).
      rewrite Hs. apply contains_skip.
      destruct rest; cbn [Str.contains]; rewrite Hq; reflexivity.
    + cbn [Str.contains]. rewrite (IH H). apply orb_true_r.
Qed.

(** X19: two of the four question patterns never decide anything: a text
    counts as a question exactly when its lower-case form contains a
    question mark or "what do you think".  And a text flagged as video
    by a marker other than "watch" is flagged as link too. *)
Theorem redundant_patterns (text : string) :
  any_match QUESTION_PATTERNS text
  = Str.contains "?" text || Str.contains "what do you think" text /\
  (has_video (snd (analyze_text text)) = true ->
   Str.contains "watch" (Str.lower text) = false ->
   has_link (snd (analyze_text text)) = true).
Proof.
  split.
  - unfold any_match, QUESTION_PATTERNS, re_search. cbn [existsb].
    destruct (Str.contains "?" text) eqn:Hq; [ reflexivity | ].
    assert (H1 : Str.contains "thoughts?" text = false).
    { destruct (Str.contains "thoughts?" text) eqn:H; [ | reflexivity ].
      apply (contains_suffix "thoughts" "?") in H. congruence. }
    assert (H2 : Str.contains "agree?" text = false).
    { destruct (Str.contains "agree?" text) eqn:H; [ | reflexivity ].
      apply (contains_suffix "agree" "?") in H. congruence. }
    rewrite H1, H2. cbn [orb]. now rewrite !orb_false_r.
  - rewrite analyze_text_modifiers. cbn [has_video has_link].
    unfold any_in, VIDEO_MARKERS, LINK_MARKERS. cbn [existsb].
    intros Hv Hw. rewrite Hw in Hv.
    destruct (Str.contains "http" (Str.lower text)),
      (Str.contains "pic." (Str.lower text)),
      (Str.contains "video" (Str.lower text)),
      (Str.contains VIDEO_CAMERA (Str.lower text)),
      (Str.contains MOVIE_CAMERA (Str.lower text));
      cbn [orb] in *; try reflexivity; discriminate Hv.
Qed.

Lemma redundant_patterns_sample :
  has_link (snd (analyze_text "New VIDEO out now")) = true.
Proof.
  apply (redundant_patterns "New VIDEO out now"); reflexivity.
Defined.

End Patterns.

Section BatchOnceMore.
Import XAlgorithmScorer ContentAnalyzer BatchAnalyzer Summary Features Ranges
  Report.
Local Open Scope string_scope.

(** X20: a batch of more than three posts of one author is answered
    with the spacing warning, which states the number of posts, whatever
    the posts say. *)
Theorem many_posts_get_the_warning (posts : list string) :
  (3 < List.length posts)%nat ->
  exists report,
    analyze_posts posts true = Py.Ok report /\
    BatchReport.recommendation report
    = "Warning: " ++ str_of_int (Z.of_nat (List.length posts))
      ++ " posts from same author. Posts 4+ receive <20% of normal score. "
      ++ "Consider spacing posts throughout the day.".
Proof.
  intros Hlen.
  destruct (analyze_posts_returns posts true) as (msg & Hmsg & ->).
  eexists. split; [ reflexivity | ]. cbn [BatchReport.recommendation].
  unfold _batch_recommendation in Hmsg.
  pose proof (entries_length true posts) as Hentries.
  destruct (entries true posts) as [ | e es ] eqn:He;
    [ simpl in Hentries; lia | ].
  cbn [truthy negb andb] in Hmsg.
  destruct (Z.ltb_spec 3 (len (e :: es))) as [_ | Hge];
    [ | unfold len in Hge; lia ].
  unfold len in Hmsg. rewrite Hentries in Hmsg. now inversion Hmsg.
Qed.

Lemma many_posts_sample :
  exists report,
    analyze_posts ["a"; "b"; "c"; "d"] true = Py.Ok report /\
    BatchReport.recommendation report
    = "Warning: 4 posts from same author. Posts 4+ receive <20% of normal score. Consider spacing posts throughout the day.".
Proof. apply (many_posts_get_the_warning ["a"; "b"; "c"; "d"]). simpl. lia. Defined.

(** X21: in a batch of one author, a text posted again later in the
    batch never scores higher than where it stood before. *)
Theorem repeated_text_never_scores_higher (posts : list string) (j k : nat) :
  (j <= k < List.length posts)%nat ->
  nth j posts "" = nth k posts "" ->
  exists report,
    analyze_posts posts true = Py.Ok report /\
    forall d,
      (PostEntry.score (nth k (BatchReport.results report) d)
       <=? PostEntry.score (nth j (BatchReport.results report) d))%float = true.
Proof.
  intros Hjk Hsame.
  destruct (analyze_posts_returns posts true) as (msg & _ & ->).
  eexists. split; [ reflexivity | ]. cbn [BatchReport.results]. intros d.
  rewrite !entries_nth by lia. rewrite !entry_score, Hsame.
  set (post := nth k posts "").
  assert (E : forall i, individual_final_score true i post
                = score_at (canonical (of_text post))
                           (position_class (Z.of_nat i + 1))).
  { intros i. unfold individual_final_score.
    pose proof (score_of_text post) as Hscore.
    pose proof (analyze_text_modifiers post) as Hm.
    destruct (analyze_text post) as [probs modifiers]. simpl in Hscore, Hm.
    rewrite Hscore; [ reflexivity | | | ]; rewrite Hm; reflexivity. }
  rewrite !E. apply score_at_decreasing; [ | lia ].
  apply canonical_in_all; apply count_matches_bound.
Qed.

Lemma repeated_text_sample :
  exists report,
    analyze_posts ["same"; "other"; "same"] true = Py.Ok report /\
    forall d,
      (PostEntry.score (nth 2 (BatchReport.results report) d)
       <=? PostEntry.score (nth 0 (BatchReport.results report) d))%float = true.
Proof.
  apply (repeated_text_never_scores_higher ["same"; "other"; "same"] 0 2).
  - simpl. lia.
  - reflexivity.
Defined.

End BatchOnceMore.
